(** * Healthcare data hub: the query client and the RAG query pipeline

    The development has two parts.

    - [frontend/src]: the query client, embedded from the TypeScript sources
      ([lib/types.ts], [lib/api.ts], [stores/queryStore.ts],
      [components/query/QueryInput.tsx], [components/query/QueryResult.tsx]).
      The zustand store is a record, every action is a function on it, and
      the asynchronous [executeQuery] is cut at its [await] into the part
      that runs before the request and the part that runs when it settles.

    - The backend pipeline (classifier, filter builder, context assembler,
      answer generator, orchestrator) is not among the sources; module
      [Pipeline] models it from the specification. *)

From stdpp Require Import base option list strings finite gmap.
From Stdlib Require Import NArith QArith DecimalString.

Local Open Scope N_scope.
Local Open Scope nat_scope.

(** ** JavaScript strings

    A JavaScript string is a sequence of UTF-16 code units. *)

Definition jsstring : Type := list N.

(** A string literal of the sources (ASCII only). *)
Definition js (s : string) : jsstring :=
  Ascii.N_of_ascii <$> String.list_ascii_of_string s.

(** [ToBoolean] on a string: the empty string is falsy. *)
Definition truthy (s : jsstring) : bool :=
  match s with
  | [] => false
  | _ :: _ => true
  end.

(** [s || undefined] and [s || null] on a string. *)
Definition or_undefined (s : jsstring) : option jsstring :=
  if truthy s then Some s else None.

(** [o || null] on [string | undefined]: [undefined] and the empty string
    both become [null]. *)
Definition or_null (o : option jsstring) : option jsstring :=
  match o with
  | Some s => if truthy s then Some s else None
  | None => None
  end.

(** The code points [String.prototype.trim] strips: ECMAScript's WhiteSpace
    (TAB, VT, FF, SP, NBSP, ZWNBSP and the category Zs) and LineTerminator
    (LF, CR, LS, PS).  All of them are single code units. *)
Definition isWhiteSpace (c : N) : bool :=
  bool_decide (c ∈ [9; 10; 11; 12; 13; 32; 160; 5760; 8232; 8233; 8239; 8287;
                    12288; 65279]%N)
  || ((8192 <=? c)%N && (c <=? 8202)%N).

Fixpoint trimStart (s : jsstring) : jsstring :=
  match s with
  | [] => []
  | c :: s' => if isWhiteSpace c then trimStart s' else s
  end.

Definition trimEnd (s : jsstring) : jsstring :=
  reverse (trimStart (reverse s)).

Definition trim (s : jsstring) : jsstring := trimEnd (trimStart s).

(** A number rendered by a template literal (a non-negative integer). *)
Definition showN (n : N) : jsstring :=
  js (NilEmpty.string_of_uint (N.to_uint n)).

(** ** lib/types.ts *)

Module Source.
Record t : Type := mk
  { id : jsstring; score : Q; domain : jsstring; source : jsstring }.
End Source.

Module QueryResult.
Record t : Type := mk
  { question : jsstring;
    answer : jsstring;
    sources : list Source.t;
    domains_searched : list jsstring;
    query_time_seconds : Q }.
End QueryResult.

Module QueryHistoryItem.
Record t : Type := mk
  { id : jsstring;
    question : jsstring;
    answer : jsstring;
    sources_count : nat;
    query_time_seconds : Q;
    timestamp : jsstring;
    bookmarked : bool }.
End QueryHistoryItem.

Definition DOMAINS : list jsstring :=
  [js "eligibility"; js "claims"; js "benefits"; js "pharmacy";
   js "compliance"; js "providers"].

(** ** lib/api.ts *)

(** What a [catch] receives: an [Error] with its message, or any other
    value. *)
Inductive thrown : Type :=
  | ThrownError (message : jsstring)
  | ThrownOther.

(** A settled promise. *)
Definition settled (A : Type) : Type := thrown + A.

(** The body that [api.query] posts to [/api/query]. *)
Module QueryRequest.
Record t : Type := mk
  { question : jsstring;
    top_k : Z;
    domain_filter : option jsstring;
    source_type_filter : option jsstring;
    classification_filter : option jsstring }.
End QueryRequest.

(** The [Response] of [fetch], as far as [fetchAPI] reads it. *)
Record Response (T : Type) : Type := mkResponse
  { ok : bool;
    status : N;
    text : settled jsstring;
    json : settled T }.
Arguments mkResponse {T} _ _ _ _.
Arguments ok {T} _.
Arguments status {T} _.
Arguments text {T} _.
Arguments json {T} _.

Module api.

(** [fetchAPI], given how [fetch] settles. *)
Definition fetchAPI {T : Type} (fetched : settled (Response T)) : settled T :=
  match fetched with
  | inl e => inl e
  | inr res =>
      if negb (ok res) then
        match text res with
        | inl e => inl e
        | inr detail =>
            inl (ThrownError
                   (js "API error " ++ showN (status res) ++ js ": " ++ detail))
        end
      else json res
  end.

(** The request [api.query] builds; [topK] defaults to 10. *)
Definition query (question : jsstring) (topK : option Z)
    (domainFilter sourceTypeFilter classificationFilter : option jsstring)
  : QueryRequest.t :=
  {| QueryRequest.question := question;
     QueryRequest.top_k := default 10%Z topK;
     QueryRequest.domain_filter := or_null domainFilter;
     QueryRequest.source_type_filter := or_null sourceTypeFilter;
     QueryRequest.classification_filter := or_null classificationFilter |}.

End api.

(** ** stores/queryStore.ts *)

Record QueryStore : Type := mkQueryStore
  { currentQuery : jsstring;
    isLoading : bool;
    currentResult : option QueryResult.t;
    error : option jsstring;
    domainFilter : jsstring;
    sourceTypeFilter : jsstring;
    classificationFilter : jsstring;
    history : list QueryHistoryItem.t }.

(** The state the store is created with (queryStore.ts, lines 34 to 41).
    It is the state of a first visit only: [persist] keeps [history] in the
    browser's storage and puts it back on every later load, see
    [rehydrate]. *)
Definition initialStore : QueryStore :=
  {| currentQuery := [];
     isLoading := false;
     currentResult := None;
     error := None;
     domainFilter := [];
     sourceTypeFilter := [];
     classificationFilter := [];
     history := [] |}.

(** [persist] with [partialize: (state) => ({ history: state.history })]
    (queryStore.ts, lines 98 to 101): the stored object holds the history
    alone, and on load it is merged over the created state, so the store a
    page starts from has the stored history and every other field as
    created.  Nothing is stored on a first visit. *)
Definition rehydrate (stored : option (list QueryHistoryItem.t)) : QueryStore :=
  match stored with
  | None => initialStore
  | Some persisted =>
      {| currentQuery := currentQuery initialStore;
         isLoading := isLoading initialStore;
         currentResult := currentResult initialStore;
         error := error initialStore;
         domainFilter := domainFilter initialStore;
         sourceTypeFilter := sourceTypeFilter initialStore;
         classificationFilter := classificationFilter initialStore;
         history := persisted |}
  end.

Definition setQuery (query : jsstring) (s : QueryStore) : QueryStore :=
  {| currentQuery := query;
     isLoading := isLoading s;
     currentResult := currentResult s;
     error := error s;
     domainFilter := domainFilter s;
     sourceTypeFilter := sourceTypeFilter s;
     classificationFilter := classificationFilter s;
     history := history s |}.

Definition setDomainFilter (filter : jsstring) (s : QueryStore) : QueryStore :=
  {| currentQuery := currentQuery s;
     isLoading := isLoading s;
     currentResult := currentResult s;
     error := error s;
     domainFilter := filter;
     sourceTypeFilter := sourceTypeFilter s;
     classificationFilter := classificationFilter s;
     history := history s |}.

Definition setSourceTypeFilter (filter : jsstring) (s : QueryStore) : QueryStore :=
  {| currentQuery := currentQuery s;
     isLoading := isLoading s;
     currentResult := currentResult s;
     error := error s;
     domainFilter := domainFilter s;
     sourceTypeFilter := filter;
     classificationFilter := classificationFilter s;
     history := history s |}.

Definition setClassificationFilter (filter : jsstring) (s : QueryStore)
  : QueryStore :=
  {| currentQuery := currentQuery s;
     isLoading := isLoading s;
     currentResult := currentResult s;
     error := error s;
     domainFilter := domainFilter s;
     sourceTypeFilter := sourceTypeFilter s;
     classificationFilter := filter;
     history := history s |}.

Definition clearResult (s : QueryStore) : QueryStore :=
  {| currentQuery := currentQuery s;
     isLoading := isLoading s;
     currentResult := None;
     error := None;
     domainFilter := domainFilter s;
     sourceTypeFilter := sourceTypeFilter s;
     classificationFilter := classificationFilter s;
     history := history s |}.

(** [set({ history })]. *)
Definition setHistory (h : list QueryHistoryItem.t) (s : QueryStore)
  : QueryStore :=
  {| currentQuery := currentQuery s;
     isLoading := isLoading s;
     currentResult := currentResult s;
     error := error s;
     domainFilter := domainFilter s;
     sourceTypeFilter := sourceTypeFilter s;
     classificationFilter := classificationFilter s;
     history := h |}.

(** [executeQuery] up to its [await]: the filters are read, the loading
    flag is raised, the error is cleared, and the request leaves with a
    literal [top_k] of 10. *)
Definition executeQuery_request (question : jsstring) (s : QueryStore)
  : QueryRequest.t :=
  api.query question (Some 10%Z)
    (or_undefined (domainFilter s))
    (or_undefined (sourceTypeFilter s))
    (or_undefined (classificationFilter s)).

Definition executeQuery_start (question : jsstring) (s : QueryStore)
  : QueryStore :=
  {| currentQuery := question;
     isLoading := true;
     currentResult := currentResult s;
     error := None;
     domainFilter := domainFilter s;
     sourceTypeFilter := sourceTypeFilter s;
     classificationFilter := classificationFilter s;
     history := history s |}.

(** The history entry built from a result; [uuid] is what
    [crypto.randomUUID()] returned and [now] what
    [new Date().toISOString()] returned. *)
Definition historyItem (result : QueryResult.t) (uuid now : jsstring)
  : QueryHistoryItem.t :=
  {| QueryHistoryItem.id := uuid;
     QueryHistoryItem.question := QueryResult.question result;
     QueryHistoryItem.answer := QueryResult.answer result;
     QueryHistoryItem.sources_count := length (QueryResult.sources result);
     QueryHistoryItem.query_time_seconds := QueryResult.query_time_seconds result;
     QueryHistoryItem.timestamp := now;
     QueryHistoryItem.bookmarked := false |}.

(** The message the [catch] stores. *)
Definition errorMessage (e : thrown) : jsstring :=
  match e with
  | ThrownError message => message
  | ThrownOther => js "Query failed"
  end.


(** [executeQuery] after its [await]: [s] is the store at that moment (the
    updater form of [set] reads it then). *)
Definition executeQuery_settle (outcome : settled QueryResult.t)
    (uuid now : jsstring) (s : QueryStore) : QueryStore :=
  match outcome with
  | inr result =>
      {| currentQuery := currentQuery s;
         isLoading := false;
         currentResult := Some result;
         error := error s;
         domainFilter := domainFilter s;
         sourceTypeFilter := sourceTypeFilter s;
         classificationFilter := classificationFilter s;
         history := take 100 (historyItem result uuid now :: history s) |}
  | inl e =>
      {| currentQuery := currentQuery s;
         isLoading := false;
         currentResult := currentResult s;
         error := Some (errorMessage e);
         domainFilter := domainFilter s;
         sourceTypeFilter := sourceTypeFilter s;
         classificationFilter := classificationFilter s;
         history := history s |}
  end.

(** One whole call of [executeQuery] with nothing in between: [fetched] is
    how [fetch] settles for the request. *)
Definition executeQuery (question : jsstring)
    (fetched : QueryRequest.t -> settled (Response QueryResult.t))
    (uuid now : jsstring) (s : QueryStore) : QueryStore :=
  executeQuery_settle
    (api.fetchAPI (fetched (executeQuery_request question s)))
    uuid now (executeQuery_start question s).

Definition toggleItem (id : jsstring) (item : QueryHistoryItem.t)
  : QueryHistoryItem.t :=
  if decide (QueryHistoryItem.id item = id) then
    {| QueryHistoryItem.id := QueryHistoryItem.id item;
       QueryHistoryItem.question := QueryHistoryItem.question item;
       QueryHistoryItem.answer := QueryHistoryItem.answer item;
       QueryHistoryItem.sources_count := QueryHistoryItem.sources_count item;
       QueryHistoryItem.query_time_seconds :=
         QueryHistoryItem.query_time_seconds item;
       QueryHistoryItem.timestamp := QueryHistoryItem.timestamp item;
       QueryHistoryItem.bookmarked := negb (QueryHistoryItem.bookmarked item) |}
  else item.

Definition toggleBookmark (id : jsstring) (s : QueryStore) : QueryStore :=
  setHistory (toggleItem id <$> history s) s.

Definition deleteHistoryItem (id : jsstring) (s : QueryStore) : QueryStore :=
  setHistory (filter (fun item => QueryHistoryItem.id item <> id) (history s)) s.

Definition clearHistory (s : QueryStore) : QueryStore := setHistory [] s.

(** ** components/query/QueryInput.tsx *)

(** The values the three [select] elements offer; the first option of each
    is the empty value. *)
Definition domainOptions : list jsstring := [] :: DOMAINS.
Definition sourceTypeOptions : list jsstring := [[]; js "internal"; js "external"].
Definition classificationOptions : list jsstring := [[]; js "PII"; js "public"].

(** A call of [executeQuery] seen from the caller: the store after the
    synchronous part, and the request that left. *)
Definition callExecuteQuery (question : jsstring) (s : QueryStore)
  : QueryStore * list QueryRequest.t :=
  (executeQuery_start question s, [executeQuery_request question s]).

(** [handleSubmit], the form's [onSubmit]. *)
Definition handleSubmit (s : QueryStore) : QueryStore * list QueryRequest.t :=
  if truthy (trim (currentQuery s)) && negb (isLoading s)
  then callExecuteQuery (trim (currentQuery s)) s
  else (s, []).

(** A [select]'s [onChange]: the chosen option's value goes to the setter;
    there is no event for an option that does not exist. *)
Definition selectChange (options : list jsstring)
    (setter : jsstring -> QueryStore -> QueryStore) (choice : nat)
    (s : QueryStore) : QueryStore :=
  match options !! choice with
  | Some value => setter value s
  | None => s
  end.

(** The "Clear all" button. *)
Definition clearAllFilters (s : QueryStore) : QueryStore :=
  setClassificationFilter [] (setSourceTypeFilter [] (setDomainFilter [] s)).

(** ** components/query/QueryResult.tsx *)

Record SourceCardProps : Type := mkSourceCardProps
  { source : Source.t; index : nat }.

(** What the answer card shows of a result. *)
Record ResultCards : Type := mkResultCards
  { shownTime : Q;
    bookmarkButton : option (jsstring * bool);
    shownAnswer : jsstring;
    shownDomains : list jsstring;
    sourceCards : list SourceCardProps }.

Inductive view : Type :=
  | Skeleton
  | QueryFailed (message : jsstring)
  | Null
  | Result (cards : ResultCards).

(** [currentResult.sources.map((source, i) => <SourceCard index={i + 1} />)] *)
Definition renderSources (sources : list Source.t) : list SourceCardProps :=
  imap (fun i source => {| source := source; index := i + 1 |}) sources.

Definition renderResult (s : QueryStore) : view :=
  match currentResult s with
  | None => Null
  | Some currentResult =>
      let latestHistoryItem := history s !! 0 in
      Result
        {| shownTime := QueryResult.query_time_seconds currentResult;
           bookmarkButton :=
             (fun item =>
                (QueryHistoryItem.id item, QueryHistoryItem.bookmarked item))
               <$> latestHistoryItem;
           shownAnswer := QueryResult.answer currentResult;
           shownDomains := QueryResult.domains_searched currentResult;
           sourceCards := renderSources (QueryResult.sources currentResult) |}
  end.

(** The component [QueryResult]: [if (isLoading)], then [if (error)] (a
    truthiness test on [string | null]), then the result. *)
Definition QueryResultView (s : QueryStore) : view :=
  if isLoading s then Skeleton
  else
    match error s with
    | Some message => if truthy message then QueryFailed message else renderResult s
    | None => renderResult s
    end.

(** ** The client as a transition system

    Every handler of the pages that touches the store is an event.  A
    pending request may settle at any later moment, in any order; the
    model does not track which requests are pending, so it has every run
    of the client and more. *)

Inductive event : Type :=
  | InputChange (value : jsstring)
  | DomainSelect (choice : nat)
  | SourceTypeSelect (choice : nat)
  | ClassificationSelect (choice : nat)
  | ClearAllClick
  | FormSubmit
  | ExampleClick (query : jsstring)
  | RerunClick (question : jsstring)
  | BookmarkClick (id : jsstring)
  | DeleteClick (id : jsstring)
  | ClearHistoryClick
  | Settled (fetched : settled (Response QueryResult.t)) (uuid now : jsstring).

Definition step (ev : event) (s : QueryStore) : QueryStore * list QueryRequest.t :=
  match ev with
  | InputChange value => (setQuery value s, [])
  | DomainSelect choice => (selectChange domainOptions setDomainFilter choice s, [])
  | SourceTypeSelect choice =>
      (selectChange sourceTypeOptions setSourceTypeFilter choice s, [])
  | ClassificationSelect choice =>
      (selectChange classificationOptions setClassificationFilter choice s, [])
  | ClearAllClick => (clearAllFilters s, [])
  | FormSubmit => handleSubmit s
  | ExampleClick query => callExecuteQuery query (setQuery query s)
  | RerunClick question => callExecuteQuery question (setQuery question s)
  | BookmarkClick id => (toggleBookmark id s, [])
  | DeleteClick id => (deleteHistoryItem id s, [])
  | ClearHistoryClick => (clearHistory s, [])
  | Settled fetched uuid now =>
      (executeQuery_settle (api.fetchAPI fetched) uuid now s, [])
  end.

(** The store after a sequence of events, and the requests sent on the
    way, oldest first. *)
Fixpoint run (evs : list event) (s : QueryStore) : QueryStore * list QueryRequest.t :=
  match evs with
  | [] => (s, [])
  | ev :: evs' =>
      let '(s1, sent1) := step ev s in
      let '(s2, sent2) := run evs' s1 in
      (s2, sent1 ++ sent2)
  end.

(** ** The query pipeline

    The backend that answers [POST /api/query] is not among the sources.
    Everything in this module is modelled from the specification; the
    external providers (embedding, vector search, text generation) and the
    clock are parameters. *)

Module Pipeline.

(** Modelled from the spec: the backend's domain tags (section 3,
    DomainTag); the backend sources are missing. *)
Inductive DomainTag : Type :=
  | eligibility | claims | benefits | pharmacy | compliance | providers.

(** Modelled from the spec: the values of the source type and
    classification fields of a filter (section 3, RetrievalFilter). *)
Inductive SourceType : Type := internal | external.

Inductive Classification : Type := restricted | public.

#[global] Instance DomainTag_eq_dec : EqDecision DomainTag.
Proof. solve_decision. Defined.
#[global] Instance SourceType_eq_dec : EqDecision SourceType.
Proof. solve_decision. Defined.
#[global] Instance Classification_eq_dec : EqDecision Classification.
Proof. solve_decision. Defined.

Definition allDomains : list DomainTag :=
  [eligibility; claims; benefits; pharmacy; compliance; providers].

#[global, refine] Instance DomainTag_finite : Finite DomainTag :=
  {| enum := allDomains |}.
Proof.
  - by apply (bool_decide_unpack _).
  - by intros []; apply (bool_decide_unpack _).
Defined.

(** Modelled from the spec: RetrievalFilter (section 3); [None] is the
    value "any". *)
Record RetrievalFilter : Type := mkRetrievalFilter
  { domain : option DomainTag;
    sourceType : option SourceType;
    classification : option Classification }.

(** Modelled from the spec: Document (section 3). *)
Module Document.
Record t : Type := mk
  { id : jsstring;
    text : jsstring;
    domain : DomainTag;
    sourceType : SourceType;
    classification : Classification;
    sourcePath : jsstring }.
End Document.

(** Modelled from the spec: Match (section 3). *)
Record Match : Type := mkMatch
  { document : Document.t; similarityScore : Q }.

(** Modelled from the spec: a Context entry (section 3): citation index,
    truncated document text, document metadata. *)
Record ContextEntry : Type := mkContextEntry
  { citationIndex : nat; truncatedText : jsstring; metadata : Document.t }.

Definition Context : Type := list ContextEntry.

(** Modelled from the spec: QueryResult (section 3). *)
Record QueryResult : Type := mkQueryResult
  { question : jsstring;
    answer : jsstring;
    sources : list Match;
    domainsSearched : list DomainTag;
    elapsedSeconds : Q }.

(** Modelled from the spec: the error taxonomy (section 7); a validation
    failure names the violated constraint, the other two carry the
    provider's detail. *)
Inductive Constraint : Type :=
  | QuestionLength | TopKRange
  | UnknownDomain | UnknownSourceType | UnknownClassification.

Inductive TypedError : Type :=
  | ValidationFailure (violated : Constraint)
  | RetrievalFailure (detail : jsstring)
  | GenerationFailure (detail : jsstring).

(** *** 4.1 Domain classifier *)

(** Modelled from the spec: case-insensitive, whole-word matching (4.1).
    Case is folded on the letters A to Z, and a word consists of letters,
    digits and the underscore. *)
Definition lower (c : N) : N :=
  if ((65 <=? c) && (c <=? 90))%N then (c + 32)%N else c.

Definition isWordChar (c : N) : bool :=
  (((48 <=? c) && (c <=? 57)) || ((65 <=? c) && (c <=? 90))
   || ((97 <=? c) && (c <=? 122)) || (c =? 95))%N.

(** Modelled from the spec: the rest of [s] after the keyword, when [s]
    starts with it, case ignored (4.1). *)
Fixpoint afterKeyword (keyword s : jsstring) : option jsstring :=
  match keyword, s with
  | [], _ => Some s
  | _ :: _, [] => None
  | k :: keyword', c :: s' =>
      if (lower k =? lower c)%N then afterKeyword keyword' s' else None
  end.

Definition atBoundary (neighbour : option N) : bool :=
  match neighbour with
  | None => true
  | Some c => negb (isWordChar c)
  end.

(** Modelled from the spec: the whole-word occurrences of one keyword
    (4.1); [previous] is the character before [s]. *)
Fixpoint wholeWordMatches (keyword : jsstring) (previous : option N)
    (s : jsstring) : nat :=
  match s with
  | [] => 0
  | c :: s' =>
      (if atBoundary previous
          && match afterKeyword keyword s with
             | Some rest => truthy keyword && atBoundary (head rest)
             | None => false
             end
       then 1 else 0)
      + wholeWordMatches keyword (Some c) s'
  end.

Section Classifier.

(** The fixed keyword table of the classifier; the specification does
    not list it. *)
Variable keywords : DomainTag -> list jsstring.

(** Modelled from the spec: the classifier's match count (4.1): whole
    word, case-insensitive matches of any keyword of the domain. *)
Definition matchCount (question : jsstring) (d : DomainTag) : nat :=
  sum_list ((fun keyword => wholeWordMatches keyword None question)
              <$> keywords d).

Definition maxCount (question : jsstring) : nat :=
  max_list (matchCount question <$> allDomains).

(** Modelled from the spec: [classify] (4.1): the empty set when no
    keyword matches, otherwise every domain whose count is the
    maximum, all of them when several are tied. *)
Definition classify (question : jsstring) : gset DomainTag :=
  if decide (maxCount question = 0) then ∅
  else
    list_to_set
      (filter (fun d => matchCount question d = maxCount question) allDomains).

End Classifier.

(** *** 4.2 Retrieval filter builder *)

(** Modelled from the spec: [buildFilter] (4.2): an explicit domain wins;
    without one, a single detected domain restricts the search and
    several (or none) do not; source type and classification are the
    explicit values. *)
Definition buildFilter (explicitDomain : option DomainTag)
    (explicitSourceType : option SourceType)
    (explicitClassification : option Classification)
    (detectedDomains : gset DomainTag) : RetrievalFilter :=
  {| domain :=
       match explicitDomain with
       | Some v => Some v
       | None =>
           match elements detectedDomains with
           | [d] => Some d
           | _ => None
           end
       end;
     sourceType := explicitSourceType;
     classification := explicitClassification |}.

(** *** 4.4 Context assembler *)

(** Modelled from the spec: the per-document character budget (4.4). *)
Definition contextBudget : nat := 1500.

(** Modelled from the spec: the loop of [assemble] (4.4), [index] being
    the citation index of the next match. *)
Fixpoint assembleFrom (index : nat) (matches : list Match) : Context :=
  match matches with
  | [] => []
  | m :: rest =>
      {| citationIndex := index;
         truncatedText := take contextBudget (Document.text (document m));
         metadata := document m |}
      :: assembleFrom (S index) rest
  end.

(** Modelled from the spec: [assemble] (4.4): the matches in the given
    order, numbered from 1, each text cut to the budget. *)
Definition assemble (matches : list Match) : Context := assembleFrom 1 matches.

(** *** 6 Inbound request and its validation *)

(** Modelled from the spec: the recognised values of the three filter
    fields of the inbound call (section 6), and their names. *)
Definition parseDomain (s : jsstring) : option DomainTag :=
  if decide (s = js "eligibility") then Some eligibility
  else if decide (s = js "claims") then Some claims
  else if decide (s = js "benefits") then Some benefits
  else if decide (s = js "pharmacy") then Some pharmacy
  else if decide (s = js "compliance") then Some compliance
  else if decide (s = js "providers") then Some providers
  else None.

Definition parseSourceType (s : jsstring) : option SourceType :=
  if decide (s = js "internal") then Some internal
  else if decide (s = js "external") then Some external
  else None.

Definition parseClassification (s : jsstring) : option Classification :=
  if decide (s = js "restricted") then Some restricted
  else if decide (s = js "public") then Some public
  else None.

Definition domainName (d : DomainTag) : jsstring :=
  match d with
  | eligibility => js "eligibility"
  | claims => js "claims"
  | benefits => js "benefits"
  | pharmacy => js "pharmacy"
  | compliance => js "compliance"
  | providers => js "providers"
  end.

Definition sourceTypeName (st : SourceType) : jsstring :=
  match st with
  | internal => js "internal"
  | external => js "external"
  end.

Definition classificationName (c : Classification) : jsstring :=
  match c with
  | restricted => js "restricted"
  | public => js "public"
  end.

(** Modelled from the spec: a request that passed validation. *)
Record ValidRequest : Type := mkValidRequest
  { vQuestion : jsstring;
    vTopK : nat;
    vDomain : option DomainTag;
    vSourceType : option SourceType;
    vClassification : option Classification }.

(** Modelled from the spec: an optional enumerated field of the inbound
    call: absent is fine, present must be a recognised value. *)
Definition validateField {A : Type} (parse : jsstring -> option A)
    (violated : Constraint) (field : option jsstring)
  : TypedError + option A :=
  match field with
  | None => inr None
  | Some s =>
      match parse s with
      | Some a => inr (Some a)
      | None => inl (ValidationFailure violated)
      end
  end.

(** Modelled from the spec: input validation (sections 6 and 7): the
    question has 1 to 1000 characters, [top_k] is between 1 and 50, and
    a filter that is present is a recognised value. *)
Definition validate (req : QueryRequest.t) : TypedError + ValidRequest :=
  if decide (1 <= length (QueryRequest.question req) <= 1000) then
    if decide (1 <= QueryRequest.top_k req <= 50)%Z then
      match validateField parseDomain UnknownDomain
              (QueryRequest.domain_filter req) with
      | inl e => inl e
      | inr d =>
          match validateField parseSourceType UnknownSourceType
                  (QueryRequest.source_type_filter req) with
          | inl e => inl e
          | inr st =>
              match validateField parseClassification UnknownClassification
                      (QueryRequest.classification_filter req) with
              | inl e => inl e
              | inr c =>
                  inr {| vQuestion := QueryRequest.question req;
                         vTopK := Z.to_nat (QueryRequest.top_k req);
                         vDomain := d;
                         vSourceType := st;
                         vClassification := c |}
              end
          end
      end
    else inl (ValidationFailure TopKRange)
  else inl (ValidationFailure QuestionLength).

(** *** External providers and the calls made to them *)

(** Modelled from the spec: what the generator sends (4.5): the grounding
    instruction, the context entries with their citation indices, and the
    question verbatim. *)
Record Prompt : Type := mkPrompt
  { instruction : jsstring; entries : Context; asked : jsstring }.

(** Modelled from the spec: the collaborators of section 6 ([embed],
    [search], [generate]); each may fail with a detail.  [clock n] is the
    n-th reading of the clock during one query. *)
Record Providers : Type := mkProviders
  { embed : jsstring -> jsstring + list Q;
    search : list Q -> RetrievalFilter -> nat -> jsstring + list Match;
    generateText : Prompt -> Q -> jsstring + jsstring;
    clock : nat -> Q }.

(** Modelled from the spec: the calls to the collaborators, as a
    call-count assertion observes them (section 8). *)
Inductive Call : Type :=
  | EmbedCall (text : jsstring)
  | SearchCall (vector : list Q) (filter : RetrievalFilter) (k : nat)
  | GenerateCall (prompt : Prompt) (temperature : Q).

Definition isGenerateCall (c : Call) : bool :=
  match c with
  | GenerateCall _ _ => true
  | _ => false
  end.

(** Modelled from the spec: a stage of the pipeline (section 7): it fails
    with a typed error, which aborts the stages after it, or returns a
    value; it appends the provider calls it made to the log. *)
Definition Stage (A : Type) : Type := list Call -> (TypedError + A) * list Call.

#[global] Instance Stage_ret : MRet Stage :=
  fun A a log => (inr a, log).

#[global] Instance Stage_bind : MBind Stage :=
  fun A B k m log =>
    match m log with
    | (inl e, log') => (inl e, log')
    | (inr a, log') => k a log'
    end.

Definition failWith {A : Type} (e : TypedError) : Stage A :=
  fun log => (inl e, log).

Definition called (c : Call) : Stage unit :=
  fun log => (inr tt, log ++ [c]).

Definition lift {A : Type} (r : TypedError + A) : Stage A :=
  fun log => (r, log).

Section Orchestrator.

Variable keywords : DomainTag -> list jsstring.
Variable P : Providers.

(** *** 4.3 Vector retriever *)

(** Modelled from the spec: [retrieve] (4.3): embed the question, then
    search under the filter for up to [k] matches; either failure is a
    retrieval failure, an empty list is a result. *)
Definition retrieve (question : jsstring) (filter : RetrievalFilter)
    (k : nat) : Stage (list Match) :=
  _ ← called (EmbedCall question);
  match embed P question with
  | inl detail => failWith (RetrievalFailure detail)
  | inr vector =>
      _ ← called (SearchCall vector filter k);
      match search P vector filter k with
      | inl detail => failWith (RetrievalFailure detail)
      | inr matches => mret matches
      end
  end.

(** *** 4.5 Answer generator *)

(** Modelled from the spec: the fixed low temperature, the instruction
    and the answer for an empty context (4.5); the specification fixes
    neither wording. *)
Definition temperature : Q := 3 # 10.

Definition groundingInstruction : jsstring :=
  js "Answer only from the numbered context below and cite it by index.".

Definition insufficientInformation : jsstring :=
  js "There is insufficient information in the indexed sources to answer this question.".

(** Modelled from the spec: [generate] (4.5): on an empty context the
    fixed answer, without a provider call; otherwise one call at the
    fixed temperature, its text returned unmodified, its failure a
    generation failure. *)
Definition generate (question : jsstring) (context : Context)
  : Stage jsstring :=
  match context with
  | [] => mret insufficientInformation
  | _ :: _ =>
      let prompt :=
        {| instruction := groundingInstruction;
           entries := context;
           asked := question |} in
      _ ← called (GenerateCall prompt temperature);
      match generateText P prompt temperature with
      | inl detail => failWith (GenerationFailure detail)
      | inr text => mret text
      end
  end.

(** *** 4.6 Query orchestrator *)

(** Modelled from the spec: the filter [execute] searches under (4.6). *)
Definition executeFilter (v : ValidRequest) : RetrievalFilter :=
  buildFilter (vDomain v) (vSourceType v) (vClassification v)
    (classify keywords (vQuestion v)).

(** Modelled from the spec: [execute] (4.6): validate, read the clock,
    classify, build the filter, retrieve, assemble, generate, read the
    clock again, and build the result from the same matches. *)
Definition execute (req : QueryRequest.t) : Stage QueryResult :=
  v ← lift (validate req);
  let started := clock P 0 in
  let filter := executeFilter v in
  matches ← retrieve (vQuestion v) filter (vTopK v);
  let context := assemble matches in
  text ← generate (vQuestion v) context;
  let finished := clock P 1 in
  mret {| question := vQuestion v;
          answer := text;
          sources := matches;
          domainsSearched := option_list (domain filter);
          elapsedSeconds := finished - started |}.

End Orchestrator.

(** Modelled from the spec: the JSON shape of a result (section 6), which
    is the client's [QueryResult]. *)
Definition toSource (m : Match) : Source.t :=
  {| Source.id := Document.id (document m);
     Source.score := similarityScore m;
     Source.domain := domainName (Document.domain (document m));
     Source.source := Document.sourcePath (document m) |}.

Definition toJSON (r : QueryResult) : QueryResult.t :=
  {| QueryResult.question := question r;
     QueryResult.answer := answer r;
     QueryResult.sources := toSource <$> sources r;
     QueryResult.domains_searched := domainName <$> domainsSearched r;
     QueryResult.query_time_seconds := elapsedSeconds r |}.

End Pipeline.

(** ** More of the client

    The parts of the pages around the store that the sections above leave
    out. *)

(** *** lib/types.ts: [DataSourceInfo] *)

Module DataSourceInfo.
Inductive SourceType : Type := internal | external.
Inductive Classification : Type := PII | public.
Record t : Type := mk
  { id : jsstring;
    name : jsstring;
    domain : jsstring;
    source_type : SourceType;
    classification : Classification;
    filepath : jsstring;
    record_count : option Z;
    file_format : jsstring }.
End DataSourceInfo.

(** *** components/query/QueryInput.tsx: the filter toggle and the button *)

(** [a || b] on strings. *)
Definition or_string (a b : jsstring) : jsstring := if truthy a then a else b.

(** [domainFilter || sourceTypeFilter || classificationFilter]; the
    component reads it as a condition. *)
Definition hasFilters (s : QueryStore) : jsstring :=
  or_string (or_string (domainFilter s) (sourceTypeFilter s))
    (classificationFilter s).

(** The [disabled] attribute of the submit button. *)
Definition submitDisabled (s : QueryStore) : bool :=
  isLoading s || negb (truthy (trim (currentQuery s))).

(** *** components/query/QueryResult.tsx: the "Domains searched" line *)

(** [Array.prototype.join] on strings. *)
Fixpoint join (separator : jsstring) (parts : list jsstring) : jsstring :=
  match parts with
  | [] => []
  | [part] => part
  | part :: rest => part ++ separator ++ join separator rest
  end.

(** The text after "Domains searched: ", or [None] when the line is not
    rendered. *)
Definition domainsSearchedLine (currentResult : QueryResult.t)
  : option jsstring :=
  if bool_decide (0 < length (QueryResult.domains_searched currentResult))
  then Some (or_string
               (join (js ", ") (QueryResult.domains_searched currentResult))
               (js "All"))
  else None.

(** *** The history page *)

(** A history entry with its bookmark taken off. *)
Definition unmarked (item : QueryHistoryItem.t) : QueryHistoryItem.t :=
  {| QueryHistoryItem.id := QueryHistoryItem.id item;
     QueryHistoryItem.question := QueryHistoryItem.question item;
     QueryHistoryItem.answer := QueryHistoryItem.answer item;
     QueryHistoryItem.sources_count := QueryHistoryItem.sources_count item;
     QueryHistoryItem.query_time_seconds :=
       QueryHistoryItem.query_time_seconds item;
     QueryHistoryItem.timestamp := QueryHistoryItem.timestamp item;
     QueryHistoryItem.bookmarked := false |}.

Module HistoryPage.

(** The page's [filter] state: ["all" | "bookmarked"]. *)
Inductive Filter : Type := all | bookmarked.

Definition filtered (filter : Filter) (history : list QueryHistoryItem.t)
  : list QueryHistoryItem.t :=
  match filter with
  | bookmarked =>
      base.filter (fun h => QueryHistoryItem.bookmarked h = true) history
  | all => history
  end.

(** The number in the "Saved (n)" tab. *)
Definition savedCount (history : list QueryHistoryItem.t) : nat :=
  length (base.filter (fun h => QueryHistoryItem.bookmarked h = true) history).

(** The page's [confirmClear] flag beside the store. *)
Record State : Type := mkState
  { confirmClear : bool; store : QueryStore }.

(** [handleClear]: the first click arms the confirmation (and starts the
    three-second timer), a click while armed clears the history. *)
Definition handleClear (st : State) : State :=
  if confirmClear st then
    {| confirmClear := false; store := clearHistory (store st) |}
  else {| confirmClear := true; store := store st |}.

(** The timer's callback: [setConfirmClear(false)]. *)
Definition confirmTimeout (st : State) : State :=
  {| confirmClear := false; store := store st |}.

(** What can happen to the clear button: a click, or a timer of an
    earlier click firing. *)
Inductive Event : Type := ClearClick | ConfirmTimeout.

Definition step (ev : Event) (st : State) : State :=
  match ev with
  | ClearClick => handleClear st
  | ConfirmTimeout => confirmTimeout st
  end.

Definition run (evs : list Event) (st : State) : State :=
  foldl (fun st ev => step ev st) st evs.

(** Two clicks with nothing between them. *)
Fixpoint doubleClick (evs : list Event) : bool :=
  match evs with
  | [] => false
  | ClearClick :: rest =>
      match rest with
      | ClearClick :: _ => true
      | _ => doubleClick rest
      end
  | ConfirmTimeout :: rest => doubleClick rest
  end.

End HistoryPage.

(** *** The analytics page *)

Module Analytics.


(** An entry of [domainData]; its field [domain] holds the capitalised
    label. *)
Record DomainDatum : Type := mkDomainDatum
  { label : jsstring; records : Z; rawDomain : jsstring }.

(** [s.record_count ?? 0] *)
Definition recordCount (s : DataSourceInfo.t) : Z :=
  default 0%Z (DataSourceInfo.record_count s).


(** The double nearest to an integer, ties to the even significand: an
    integer below 2^53 in magnitude is a double itself, a larger one keeps
    its 53 leading bits.  (From 2^1024 on a double is [Infinity], which
    this does not describe.) *)
Definition roundNumber (z : Z) : Z :=
  let m := Z.abs z in
  if (m <? 9007199254740992)%Z then z
  else
    let e := (Z.log2 m - 52)%Z in
    let q := (m / 2 ^ e)%Z in
    let r := (m mod 2 ^ e)%Z in
    let half := (2 ^ (e - 1))%Z in
    let q' := if (half <? r)%Z || ((r =? half)%Z && Z.odd q)
              then (q + 1)%Z else q in
    (Z.sgn z * (q' * 2 ^ e))%Z.

(** [a + b] on numbers that hold integers: the exact sum, rounded to a
    double. *)
Definition plus (a b : Z) : Z := roundNumber (a + b).


(** The "Total Records" card:
    [sources.reduce((s, src) => s + (src.record_count ?? 0), 0)]. *)
Definition totalRecords (sources : list DataSourceInfo.t) : Z :=
  foldl (fun total src => plus total (recordCount src)) 0%Z sources.

Section Capitalize.

(** [toUpperCase] on a one-unit string whose unit is not one of a to z:
    the platform's Unicode case mapping. *)
Variable toUpperCaseOther : N -> jsstring.

Definition toUpperCaseUnit (c : N) : jsstring :=
  if ((97 <=? c) && (c <=? 122))%N then [(c - 32)%N] else toUpperCaseOther c.

(** [d.charAt(0).toUpperCase() + d.slice(1)] *)
Definition capitalize (d : jsstring) : jsstring :=
  match d with
  | [] => []
  | c :: rest => toUpperCaseUnit c ++ rest
  end.

(** One step of the [reduce] that builds [domainData]: [acc.find] compares
    an entry's (capitalised) [domain] with the source's domain; the entry
    found is updated in place, otherwise a new entry is pushed. *)
Definition domainStep (acc : list DomainDatum) (s : DataSourceInfo.t)
  : list DomainDatum :=
  match list_find (fun d => label d = DataSourceInfo.domain s) acc with
  | Some (i, existing) =>
      <[i := {| label := label existing;
                records := plus (records existing) (recordCount s);
                rawDomain := rawDomain existing |}]> acc
  | None =>
      acc ++ [ {| label := capitalize (DataSourceInfo.domain s);
                  records := recordCount s;
                  rawDomain := DataSourceInfo.domain s |} ]
  end.

Definition domainData (sources : list DataSourceInfo.t) : list DomainDatum :=
  foldl domainStep [] sources.

(** The entry that [domainStep] pushes for a source. *)
Definition ownBar (s : DataSourceInfo.t) : DomainDatum :=
  {| label := capitalize (DataSourceInfo.domain s);
     records := recordCount s;
     rawDomain := DataSourceInfo.domain s |}.

End Capitalize.

(** The sum of the bars of the domain chart, as integers. *)
Definition sumRecords (data : list DomainDatum) : Z :=
  foldr (fun d total => (records d + total)%Z) 0%Z data.

(** The sum of the record counts of the sources, as integers. *)
Definition exactTotal (sources : list DataSourceInfo.t) : Z :=
  foldr (fun s total => (recordCount s + total)%Z) 0%Z sources.

(** The first unit of the domain is one of a to z. *)
Definition startsLowercase (s : DataSourceInfo.t) : bool :=
  match DataSourceInfo.domain s with
  | [] => false
  | c :: _ => ((97 <=? c) && (c <=? 122))%N
  end.

End Analytics.

(** *** The sources page *)

Module SourcesPage.

Section Preview.

(** The interface [DataSourcePreview] of lib/types.ts; the page only
    stores a preview and hands it to the table. *)
Variable DataSourcePreview : Type.

(** The page's [expandedId], [preview] and [previewLoading]. *)
Record State : Type := mkState
  { expandedId : option jsstring;
    preview : option DataSourcePreview;
    previewLoading : bool }.

(** The path that [api.getSourcePreview(id)] fetches. *)
Definition previewPath (id : jsstring) : jsstring :=
  js "/api/sources/" ++ id ++ js "/preview".

(** [handleToggle] up to its [await]: the state, and the paths requested.
    Toggling the expanded source collapses it and returns. *)
Definition handleToggle_start (id : jsstring) (st : State)
  : State * list jsstring :=
  if decide (expandedId st = Some id) then
    ({| expandedId := None; preview := None;
        previewLoading := previewLoading st |}, [])
  else
    ({| expandedId := Some id; preview := None; previewLoading := true |},
     [previewPath id]).

(** [handleToggle] after its [await], on the state of that moment: a
    preview that arrived is stored, a failure is only logged, and the
    spinner stops either way. *)
Definition handleToggle_settle (outcome : settled DataSourcePreview)
    (st : State) : State :=
  match outcome with
  | inr data =>
      {| expandedId := expandedId st; preview := Some data;
         previewLoading := false |}
  | inl _ =>
      {| expandedId := expandedId st; preview := preview st;
         previewLoading := false |}
  end.

(** What the row of source [id] shows below itself. *)
Inductive panel : Type :=
  | Collapsed
  | Spinner
  | PreviewTable (data : DataSourcePreview)
  | FailedToLoad.

Definition expandedPanel (id : jsstring) (st : State) : panel :=
  if decide (expandedId st = Some id) then
    if previewLoading st then Spinner
    else
      match preview st with
      | Some data => PreviewTable data
      | None => FailedToLoad
      end
  else Collapsed.

End Preview.

Arguments mkState {DataSourcePreview} _ _ _.
Arguments expandedId {DataSourcePreview} _.
Arguments preview {DataSourcePreview} _.
Arguments previewLoading {DataSourcePreview} _.
Arguments handleToggle_start {DataSourcePreview} _ _.
Arguments handleToggle_settle {DataSourcePreview} _ _.
Arguments Collapsed {DataSourcePreview}.
Arguments Spinner {DataSourcePreview}.
Arguments PreviewTable {DataSourcePreview} _.
Arguments FailedToLoad {DataSourcePreview}.
Arguments expandedPanel {DataSourcePreview} _ _.

End SourcesPage.

(** *** components/layout/Header.tsx and Sidebar.tsx: the navigation *)

Definition navItems : list (jsstring * jsstring) :=
  [(js "/", js "Query"); (js "/sources", js "Sources");
   (js "/analytics", js "Analytics"); (js "/history", js "History")].

(** [String.prototype.startsWith] *)
Definition startsWith (s searchString : jsstring) : bool :=
  bool_decide (searchString `prefix_of` s).

(** [href === "/" ? pathname === "/" : pathname.startsWith(href)] *)
Definition isActive (href pathname : jsstring) : bool :=
  if bool_decide (href = js "/") then bool_decide (pathname = js "/")
  else startsWith pathname href.

(** ** Sample data

    Concrete inputs on which the properties below are evaluated. *)

(** A [fetch] that is rejected with an [Error] of the given message. *)
Definition failingFetch (message : jsstring)
  : QueryRequest.t -> settled (Response QueryResult.t) :=
  fun _ => inl (ThrownError message).

(** A result as the backend returns it (the response of docs/TRD.md). *)
Definition earlierResult : QueryResult.t :=
  {| QueryResult.question := js "first";
     QueryResult.answer := js "Covered [1].";
     QueryResult.sources :=
       [ {| Source.id := js "fda_drug_database_3";
            Source.score := 92 # 100;
            Source.domain := js "pharmacy";
            Source.source := js "data/external/fda_drug_database.json" |} ];
     QueryResult.domains_searched := [js "pharmacy"];
     QueryResult.query_time_seconds := 32 # 10 |}.

Definition okFetch (result : QueryResult.t)
  : QueryRequest.t -> settled (Response QueryResult.t) :=
  fun _ =>
    inr {| ok := true; status := 200; text := inr []; json := inr result |}.

(** The sample keywords of the classification table in docs/TRD.md. *)
Definition sampleKeywords (d : Pipeline.DomainTag) : list jsstring :=
  match d with
  | Pipeline.eligibility =>
      [js "member_id"; js "status"; js "plan_type"; js "effective_date"]
  | Pipeline.claims =>
      [js "claim_id"; js "cpt_code"; js "diagnosis"; js "billed_amount"]
  | Pipeline.benefits =>
      [js "copay"; js "deductible"; js "prior_auth"; js "coverage"]
  | Pipeline.pharmacy =>
      [js "drug"; js "medication"; js "formulary"; js "tier"; js "fda"]
  | Pipeline.compliance =>
      [js "cms"; js "policy"; js "regulation"; js "mandate"]
  | Pipeline.providers =>
      [js "provider"; js "npi"; js "specialty"; js "network"]
  end.

(** One pharmacy keyword and one benefits keyword. *)
Definition tiedQuestion : jsstring := js "Which drug has coverage?".

(** Providers over a corpus in which nothing matches; the clock advances
    by one second per reading. *)
Definition emptyCorpus : Pipeline.Providers :=
  {| Pipeline.embed := fun _ => inr [1 # 2; 1 # 4];
     Pipeline.search := fun _ _ _ => inr [];
     Pipeline.generateText := fun _ _ => inl (js "unavailable");
     Pipeline.clock := fun n => inject_Z (Z.of_nat n) |}.

(** The same providers with a clock that reads the same each time, as a
    clock does whose resolution is coarser than the query is long. *)
Definition stoppedClock : Pipeline.Providers :=
  {| Pipeline.embed := Pipeline.embed emptyCorpus;
     Pipeline.search := Pipeline.search emptyCorpus;
     Pipeline.generateText := Pipeline.generateText emptyCorpus;
     Pipeline.clock := fun _ => 5%Q |}.

(** A [fetch] answered with a response that is not ok. *)
Definition httpErrorFetch (status : N) (detail : jsstring)
  : QueryRequest.t -> settled (Response QueryResult.t) :=
  fun _ =>
    inr {| ok := false;
           status := status;
           text := inr detail;
           json := inl (ThrownError (js "Unexpected token")) |}.

(** A question with a pharmacy keyword, asked under an explicit compliance
    filter (scenario C of the specification). *)
Definition complianceRequest : Pipeline.ValidRequest :=
  {| Pipeline.vQuestion := js "Is this drug regulated?";
     Pipeline.vTopK := 10;
     Pipeline.vDomain := Some Pipeline.compliance;
     Pipeline.vSourceType := None;
     Pipeline.vClassification := None |}.

Definition tiedRequest : QueryRequest.t :=
  api.query tiedQuestion None None None None.

Definition tiedValid : Pipeline.ValidRequest :=
  {| Pipeline.vQuestion := tiedQuestion;
     Pipeline.vTopK := 10;
     Pipeline.vDomain := None;
     Pipeline.vSourceType := None;
     Pipeline.vClassification := None |}.

(** Three data sources, two of them in the domain "claims". *)
Definition sampleSource (id domain : jsstring) (count : option Z)
  : DataSourceInfo.t :=
  {| DataSourceInfo.id := id;
     DataSourceInfo.name := id;
     DataSourceInfo.domain := domain;
     DataSourceInfo.source_type := DataSourceInfo.internal;
     DataSourceInfo.classification := DataSourceInfo.PII;
     DataSourceInfo.filepath := [];
     DataSourceInfo.record_count := count;
     DataSourceInfo.file_format := js "csv" |}.

Definition sampleSources : list DataSourceInfo.t :=
  [sampleSource (js "claims_2023") (js "claims") (Some 20%Z);
   sampleSource (js "eligibility") (js "eligibility") None;
   sampleSource (js "claims_2024") (js "claims") (Some 12%Z)].

(** Three data sources whose counts add up to more than
    [Number.MAX_SAFE_INTEGER]: 1, 2^53 and 1. *)
Definition hugeSources : list DataSourceInfo.t :=
  [sampleSource (js "a") (js "claims") (Some 1%Z);
   sampleSource (js "b") (js "benefits") (Some 9007199254740992%Z);
   sampleSource (js "c") (js "pharmacy") (Some 1%Z)].

(** * Properties of the query client *)

(** ** Whitespace and [trim] *)

Lemma trimStart_nil (s : jsstring) :
  trimStart s = [] <-> Forall (fun c => isWhiteSpace c = true) s.
Proof.
  induction s as [|c s IH]; simpl.
  - split; [constructor | reflexivity].
  - destruct (isWhiteSpace c) eqn:Hc.
    + rewrite IH. split; [by constructor | by inversion 1].
    + split; [discriminate | inversion 1; congruence].
Qed.

Lemma trimStart_head (s : jsstring) (c : N) (rest : jsstring) :
  trimStart s = c :: rest -> isWhiteSpace c = false.
Proof.
  induction s as [|c' s IH]; simpl; [discriminate|].
  destruct (isWhiteSpace c') eqn:Hc; [exact IH|].
  intros [= -> _]. exact Hc.
Qed.

Lemma trimStart_suffix (s : jsstring) : trimStart s `suffix_of` s.
Proof.
  induction s as [|c s IH]; simpl; [done|].
  destruct (isWhiteSpace c); [by apply suffix_cons_r | done].
Qed.

Lemma trimEnd_nil (s : jsstring) :
  trimEnd s = [] <-> Forall (fun c => isWhiteSpace c = true) s.
Proof.
  unfold trimEnd. rewrite <- (Forall_reverse _ s), <- trimStart_nil.
  split; intros H.
  - apply (f_equal reverse) in H. by rewrite reverse_involutive in H.
  - by rewrite H.
Qed.

Lemma trim_nil (s : jsstring) :
  trim s = [] <-> Forall (fun c => isWhiteSpace c = true) s.
Proof.
  unfold trim. rewrite trimEnd_nil. split; intros H.
  - destruct (trimStart s) as [|c rest] eqn:Hs; [by apply trimStart_nil|].
    apply trimStart_head in Hs. inversion H; congruence.
  - destruct (trimStart_suffix s) as [k Hk]. rewrite Hk in H.
    by apply Forall_app in H as [_ ?].
Qed.

Lemma truthy_length (s : jsstring) : truthy s = true <-> 1 <= length s.
Proof. destruct s; simpl; split; (done || lia). Qed.

(** ** Requests sent along a run *)

Lemma run_invariant (I : QueryStore -> Prop) (R : QueryRequest.t -> Prop) :
  (forall ev s, I s -> I (step ev s).1 /\ Forall R (step ev s).2) ->
  forall evs s, I s -> I (run evs s).1 /\ Forall R (run evs s).2.
Proof.
  intros Hstep evs. induction evs as [|ev evs IH]; intros s Hs; simpl.
  - by split.
  - destruct (Hstep ev s Hs) as [H1 HR1].
    destruct (step ev s) as [s1 sent1]; simpl in *.
    destruct (IH s1 H1) as [H2 HR2].
    destruct (run evs s1) as [s2 sent2]; simpl in *.
    split; [done | by apply Forall_app].
Qed.

Lemma step_sent (ev : event) (s : QueryStore) (r : QueryRequest.t) :
  r ∈ (step ev s).2 ->
  exists question s0, r = executeQuery_request question s0
    /\ domainFilter s0 = domainFilter s
    /\ sourceTypeFilter s0 = sourceTypeFilter s
    /\ classificationFilter s0 = classificationFilter s.
Proof.
  destruct ev; simpl; try (intros H; by apply elem_of_nil in H).
  - unfold handleSubmit.
    destruct (truthy (trim (currentQuery s)) && negb (isLoading s)); simpl;
      [|intros H; by apply elem_of_nil in H].
    intros ->%list_elem_of_singleton. eauto 10.
  - intros ->%list_elem_of_singleton. eauto 10.
  - intros ->%list_elem_of_singleton. eauto 10.
Qed.

(** C2: a query sent without a caller's [top_k] carries [top_k = 10]: the
    default of [api.query], the literal that [executeQuery] passes, and
    hence every request the client ever sends. *)
Theorem query_top_k_is_10 :
  (forall question d st c,
      QueryRequest.top_k (api.query question None d st c) = 10%Z)
  /\ (forall question s,
         QueryRequest.top_k (executeQuery_request question s) = 10%Z)
  /\ (forall evs s r, r ∈ (run evs s).2 -> QueryRequest.top_k r = 10%Z).
Proof.
  split; [reflexivity|]. split; [reflexivity|].
  intros evs s r Hr.
  pose proof (run_invariant (fun _ => True)
                (fun r => QueryRequest.top_k r = 10%Z)) as Hinv.
  destruct (Hinv) with (evs := evs) (s := s) as [_ Hall]; [|done|].
  - intros ev s0 _. split; [done|]. apply Forall_forall. intros r0 Hr0.
    apply step_sent in Hr0 as (q & s1 & -> & _). reflexivity.
  - by eapply Forall_forall in Hall.
Qed.

(** C8: a form submission whose question is empty or only whitespace calls
    nothing: the store is unchanged and no request leaves.  A submission
    that does send a request sends the trimmed input, which has at least
    one character; and a non-blank question is sent whenever no query is
    loading. *)
Theorem handleSubmit_blank_question (s : QueryStore) :
  (Forall (fun c => isWhiteSpace c = true) (currentQuery s) ->
   handleSubmit s = (s, []))
  /\ (forall r, r ∈ (handleSubmit s).2 ->
        QueryRequest.question r = trim (currentQuery s)
        /\ 1 <= length (QueryRequest.question r))
  /\ (~ Forall (fun c => isWhiteSpace c = true) (currentQuery s) ->
      isLoading s = false ->
      handleSubmit s = callExecuteQuery (trim (currentQuery s)) s).
Proof.
  unfold handleSubmit. split; [|split].
  - intros Hblank. apply trim_nil in Hblank. by rewrite Hblank.
  - intros r Hr.
    destruct (truthy (trim (currentQuery s))) eqn:Ht; simpl in Hr;
      [|by apply elem_of_nil in Hr].
    destruct (isLoading s); simpl in Hr; [by apply elem_of_nil in Hr|].
    apply list_elem_of_singleton in Hr as ->. simpl.
    split; [done | by apply truthy_length].
  - intros Hnb Hload. rewrite Hload.
    destruct (trim (currentQuery s)) eqn:Ht; [|done].
    by apply trim_nil in Ht.
Qed.

(** ** The history list *)

Lemma step_history_length (ev : event) (s : QueryStore) :
  length (history s) <= 100 -> length (history (step ev s).1) <= 100.
Proof.
  intros Hs. destruct ev; simpl; try done.
  - unfold selectChange. by destruct (domainOptions !! choice).
  - unfold selectChange. by destruct (sourceTypeOptions !! choice).
  - unfold selectChange. by destruct (classificationOptions !! choice).
  - unfold handleSubmit.
    by destruct (truthy (trim (currentQuery s)) && negb (isLoading s)).
  - by rewrite length_fmap.
  - etrans; [apply length_filter | done].
  - lia.
  - destruct (api.fetchAPI fetched) as [e|result]; simpl; [done|].
    rewrite length_take. lia.
Qed.

(** C9: the history never holds more than 100 entries, whatever the events
    (from the empty initial store, and from any store within the bound); a
    successful [executeQuery] puts exactly one new entry in front of the
    earlier ones, cut to 100, with [bookmarked] false, [sources_count] the
    number of sources of the result and question, answer and time copied
    from it; toggling, deleting and clearing never lengthen the list. *)
Theorem history_at_most_100 :
  (forall evs, length (history (run evs initialStore).1) <= 100)
  /\ (forall evs s,
         length (history s) <= 100 -> length (history (run evs s).1) <= 100)
  /\ (forall result uuid now s,
         let item := historyItem result uuid now in
         let s' := executeQuery_settle (inr result) uuid now s in
         history s' = take 100 (item :: history s)
         /\ history s' !! 0 = Some item
         /\ (forall i, S i < 100 -> history s' !! S i = history s !! i)
         /\ length (history s') = S (length (history s)) `min` 100
         /\ QueryHistoryItem.bookmarked item = false
         /\ QueryHistoryItem.sources_count item
            = length (QueryResult.sources result)
         /\ QueryHistoryItem.question item = QueryResult.question result
         /\ QueryHistoryItem.answer item = QueryResult.answer result
         /\ QueryHistoryItem.query_time_seconds item
            = QueryResult.query_time_seconds result)
  /\ (forall question fetched result uuid now s,
         api.fetchAPI (fetched (executeQuery_request question s)) = inr result ->
         history (executeQuery question fetched uuid now s)
         = take 100 (historyItem result uuid now :: history s))
  /\ (forall id s,
         length (history (toggleBookmark id s)) = length (history s))
  /\ (forall id s,
         length (history (deleteHistoryItem id s)) <= length (history s))
  /\ (forall s, length (history (clearHistory s)) = 0).
Proof.
  assert (Hrun : forall evs s,
             length (history s) <= 100 -> length (history (run evs s).1) <= 100).
  { intros evs s Hs.
    apply (run_invariant (fun s => length (history s) <= 100) (fun _ => True));
      [|done].
    intros ev s0 Hs0. split; [by apply step_history_length|].
    apply Forall_forall. done. }
  split; [intros evs; apply Hrun; simpl; lia|].
  split; [exact Hrun|].
  split.
  { intros result uuid now s item s'. subst s'. simpl.
    split; [done|]. split; [done|]. split.
    - intros i Hi. change (take 100 (item :: history s)) with
        (item :: take 99 (history s)). simpl.
      apply lookup_take_lt. lia.
    - split; [|done]. rewrite length_take.
      change (length (item :: history s)) with (S (length (history s))). lia. }
  split.
  { intros question fetched result uuid now s Hok.
    unfold executeQuery. rewrite Hok. reflexivity. }
  split; [intros id s; simpl; by rewrite length_fmap|].
  split; [intros id s; simpl; apply length_filter|].
  done.
Qed.

(** ** Bookmarks *)

Lemma toggleItem_twice (id : jsstring) (item : QueryHistoryItem.t) :
  toggleItem id (toggleItem id item) = item.
Proof.
  unfold toggleItem. destruct (decide (QueryHistoryItem.id item = id)) as [Heq|Hne].
  - simpl. rewrite decide_True by done. destruct item; simpl.
    by rewrite negb_involutive.
  - by rewrite decide_False.
Qed.

Lemma toggleItem_other (id : jsstring) (item : QueryHistoryItem.t) :
  QueryHistoryItem.id item <> id -> toggleItem id item = item.
Proof. intros Hne. unfold toggleItem. by rewrite decide_False. Qed.

(** C10: [toggleBookmark id] keeps the list's length and every position;
    an entry whose id is [id] keeps all its fields except [bookmarked],
    which is negated; every other entry is unchanged, and so is the rest
    of the store.  Toggling twice restores the store, and toggling an id
    that no entry has changes nothing. *)
Theorem toggleBookmark_flips_entry (id : jsstring) (s : QueryStore) :
  length (history (toggleBookmark id s)) = length (history s)
  /\ (forall i item,
         history s !! i = Some item ->
         exists item',
           history (toggleBookmark id s) !! i = Some item'
           /\ QueryHistoryItem.id item' = QueryHistoryItem.id item
           /\ QueryHistoryItem.question item' = QueryHistoryItem.question item
           /\ QueryHistoryItem.answer item' = QueryHistoryItem.answer item
           /\ QueryHistoryItem.sources_count item'
              = QueryHistoryItem.sources_count item
           /\ QueryHistoryItem.query_time_seconds item'
              = QueryHistoryItem.query_time_seconds item
           /\ QueryHistoryItem.timestamp item' = QueryHistoryItem.timestamp item
           /\ (QueryHistoryItem.id item = id ->
               QueryHistoryItem.bookmarked item'
               = negb (QueryHistoryItem.bookmarked item))
           /\ (QueryHistoryItem.id item <> id -> item' = item))
  /\ toggleBookmark id (toggleBookmark id s) = s
  /\ (id ∉ QueryHistoryItem.id <$> history s -> toggleBookmark id s = s)
  /\ toggleBookmark id s = setHistory (history (toggleBookmark id s)) s.
Proof.
  split; [simpl; by rewrite length_fmap|].
  split.
  { intros i item Hi. exists (toggleItem id item). simpl.
    rewrite list_lookup_fmap, Hi. simpl. split; [done|].
    unfold toggleItem.
    destruct (decide (QueryHistoryItem.id item = id)) as [Heq|Hne]; simpl;
      repeat split; try done. }
  split.
  { destruct s as [q l r e d st c h]. unfold toggleBookmark, setHistory. simpl.
    f_equal. rewrite <- list_fmap_compose.
    rewrite <- (list_fmap_id h) at 2. apply list_fmap_ext.
    intros i item _. apply toggleItem_twice. }
  split; [|done].
  intros Hn. destruct s as [q l r e d st c h].
  unfold toggleBookmark, setHistory. simpl in *. f_equal.
  rewrite <- (list_fmap_id h) at 2. apply list_fmap_ext.
  intros i item Hi. apply toggleItem_other. intros Heq. apply Hn.
  apply list_elem_of_fmap. exists item. split; [done|].
  by eapply list_elem_of_lookup_2.
Qed.

(** ** Failed queries *)

Lemma js_app_truthy (c : Ascii.ascii) (l : string) (rest : jsstring) :
  truthy (js (String c l) ++ rest) = true.
Proof. reflexivity. Qed.

(** The error that [fetchAPI] raises itself, on a response that is not ok,
    always has a non-empty message. *)
Lemma fetchAPI_http_error {T : Type} (res : Response T) (detail : jsstring) :
  ok res = false -> text res = inr detail ->
  exists message,
    api.fetchAPI (inr res) = inl (ThrownError message) /\ truthy message = true.
Proof.
  intros Hok Htext. unfold api.fetchAPI. rewrite Hok, Htext.
  eexists. split; [reflexivity|]. apply js_app_truthy.
Qed.

(** When the request of an [executeQuery] call fails with [e], the call
    ends with [error] set to the message of [e] (or to "Query failed" for
    a value that is no [Error]) and [isLoading] false; the history and
    [currentResult] are what they were; and if the message is not empty
    the component shows the "Query Failed" card with that message.  The
    same holds for the settling half alone, whatever happened in the store
    while the request was pending. *)
Theorem executeQuery_failure
    (question : jsstring)
    (fetched : QueryRequest.t -> settled (Response QueryResult.t))
    (e : thrown) (uuid now : jsstring) (s : QueryStore) :
  api.fetchAPI (fetched (executeQuery_request question s)) = inl e ->
  let s' := executeQuery question fetched uuid now s in
  error s' = Some (errorMessage e)
  /\ isLoading s' = false
  /\ history s' = history s
  /\ currentResult s' = currentResult s
  /\ (truthy (errorMessage e) = true ->
      QueryResultView s' = QueryFailed (errorMessage e))
  /\ (forall s0,
         let s1 := executeQuery_settle (inl e) uuid now s0 in
         error s1 = Some (errorMessage e)
         /\ isLoading s1 = false
         /\ history s1 = history s0
         /\ currentResult s1 = currentResult s0).
Proof.
  intros Hfail s'. subst s'. unfold executeQuery. rewrite Hfail.
  repeat split.
  intros Hmsg. unfold QueryResultView. simpl. by rewrite Hmsg.
Qed.

Lemma executeQuery_failure_witness :
  let s' := executeQuery (js "q") (failingFetch (js "Failed to fetch")) [] []
              initialStore in
  error s' = Some (js "Failed to fetch")
  /\ QueryResultView s' = QueryFailed (js "Failed to fetch").
Proof.
  pose proof (executeQuery_failure (js "q") (failingFetch (js "Failed to fetch"))
                (ThrownError (js "Failed to fetch")) [] [] initialStore
                eq_refl) as (He & _ & _ & _ & Hview & _).
  split; [exact He | exact (Hview eq_refl)].
Defined.

(** A response that is not ok always ends in the "Query Failed" card, with
    the status and the body of the response in its message. *)
Theorem executeQuery_http_error_view
    (question : jsstring)
    (fetched : QueryRequest.t -> settled (Response QueryResult.t))
    (res : Response QueryResult.t) (detail uuid now : jsstring)
    (s : QueryStore) :
  fetched (executeQuery_request question s) = inr res ->
  ok res = false ->
  text res = inr detail ->
  QueryResultView (executeQuery question fetched uuid now s)
  = QueryFailed (js "API error " ++ showN (status res) ++ js ": " ++ detail).
Proof.
  intros Hres Hok Htext. unfold executeQuery, api.fetchAPI.
  rewrite Hres, Hok, Htext. reflexivity.
Qed.

Lemma executeQuery_http_error_view_witness :
  QueryResultView
    (executeQuery (js "q") (httpErrorFetch 500 (js "down")) [] [] initialStore)
  = QueryFailed (js "API error 500: down").
Proof.
  exact (executeQuery_http_error_view (js "q")
           (httpErrorFetch 500 (js "down")) _ (js "down") [] [] initialStore
           eq_refl eq_refl eq_refl).
Defined.




(** The condition on the message, evaluated where it does not hold: a
    request rejected with an [Error] whose message is empty leaves [error]
    the empty string, which [if (error)] reads as no error, so the
    component shows the earlier query's answer and sources (and nothing
    when there is no earlier result). *)
Theorem executeQuery_empty_message_view :
  let s1 := executeQuery (js "first") (okFetch earlierResult) (js "id-1") []
              initialStore in
  let s2 := executeQuery (js "second") (failingFetch []) (js "id-2") [] s1 in
  error s2 = Some []
  /\ isLoading s2 = false
  /\ QueryResultView s2
     = Result
         {| shownTime := 32 # 10;
            bookmarkButton := Some (js "id-1", false);
            shownAnswer := js "Covered [1].";
            shownDomains := [js "pharmacy"];
            sourceCards :=
              [ {| source :=
                     {| Source.id := js "fda_drug_database_3";
                        Source.score := 92 # 100;
                        Source.domain := js "pharmacy";
                        Source.source :=
                          js "data/external/fda_drug_database.json" |};
                   index := 1 |} ] |}
  /\ QueryResultView
       (executeQuery (js "second") (failingFetch []) (js "id-2") []
          initialStore)
     = Null.
Proof. repeat split. Qed.

(** ** The classification filter *)

Lemma step_classification (ev : event) (s : QueryStore) :
  classificationFilter s ∈ classificationOptions ->
  classificationFilter (step ev s).1 ∈ classificationOptions.
Proof.
  intros Hs. destruct ev; simpl; try done.
  - unfold selectChange. by destruct (domainOptions !! choice).
  - unfold selectChange. by destruct (sourceTypeOptions !! choice).
  - unfold selectChange.
    destruct (classificationOptions !! choice) as [value|] eqn:Hv; [|done].
    simpl. by eapply list_elem_of_lookup_2.
  - by apply (bool_decide_unpack _).
  - unfold handleSubmit.
    by destruct (truthy (trim (currentQuery s)) && negb (isLoading s)).
  - by destruct (api.fetchAPI fetched).
Qed.

Lemma request_classification (question : jsstring) (s : QueryStore) :
  classificationFilter s ∈ classificationOptions ->
  QueryRequest.classification_filter (executeQuery_request question s)
  ∈ [None; Some (js "PII"); Some (js "public")].
Proof.
  intros Hs. simpl.
  unfold classificationOptions in Hs.
  apply elem_of_cons in Hs as [->|Hs]; [by apply (bool_decide_unpack _)|].
  apply elem_of_cons in Hs as [->|Hs]; [by apply (bool_decide_unpack _)|].
  apply list_elem_of_singleton in Hs as ->. by apply (bool_decide_unpack _).
Qed.

(** C3, as the code has it: the classification [select] offers the empty
    value, "PII" and "public"; every request the client sends carries a
    [classification_filter] that is null, "PII" or "public"; each of the
    three is sent by some run; and "restricted" is not among the options. *)
Theorem classification_filter_values :
  (forall evs r,
      r ∈ (run evs initialStore).2 ->
      QueryRequest.classification_filter r
      ∈ [None; Some (js "PII"); Some (js "public")])
  /\ (forall v,
         v ∈ [None; Some (js "PII"); Some (js "public")] ->
         exists evs r,
           r ∈ (run evs initialStore).2
           /\ QueryRequest.classification_filter r = v)
  /\ js "restricted" ∉ classificationOptions.
Proof.
  split; [|split].
  - intros evs r Hr.
    destruct (run_invariant
                (fun s => classificationFilter s ∈ classificationOptions)
                (fun r => QueryRequest.classification_filter r
                          ∈ [None; Some (js "PII"); Some (js "public")]))
      with (evs := evs) (s := initialStore) as [_ Hall].
    + intros ev s Hs. split; [by apply step_classification|].
      apply Forall_forall. intros r0 Hr0.
      apply step_sent in Hr0 as (q & s0 & -> & _ & _ & Hc).
      apply request_classification. by rewrite Hc.
    + by apply (bool_decide_unpack _).
    + by eapply Forall_forall in Hall.
  - intros v Hv.
    apply elem_of_cons in Hv as [->|Hv];
      [|apply elem_of_cons in Hv as [->|Hv];
        [|apply list_elem_of_singleton in Hv as ->]].
    + exists [ExampleClick (js "q")]. eexists.
      split; [apply list_elem_of_singleton|]; reflexivity.
    + exists [ClassificationSelect 1; ExampleClick (js "q")]. eexists.
      split; [apply list_elem_of_singleton|]; reflexivity.
    + exists [ClassificationSelect 2; ExampleClick (js "q")]. eexists.
      split; [apply list_elem_of_singleton|]; reflexivity.
  - by apply (bool_decide_unpack _).
Qed.

(** C3 as stated fails: choosing the option "PII" and submitting the
    question "q" sends a request whose [classification_filter] is "PII",
    which is none of null, "restricted" and "public". *)
Lemma classification_filter_PII_sent :
  (run [ClassificationSelect 1; InputChange (js "q"); FormSubmit]
     initialStore).2
  = [ {| QueryRequest.question := js "q";
         QueryRequest.top_k := 10;
         QueryRequest.domain_filter := None;
         QueryRequest.source_type_filter := None;
         QueryRequest.classification_filter := Some (js "PII") |} ]
  /\ Some (js "PII") ∉ [None; Some (js "restricted"); Some (js "public")].
Proof. split; [reflexivity | by apply (bool_decide_unpack _)]. Qed.

(** * Properties of the pipeline model *)

(** ** Classifier *)

Lemma elem_of_allDomains (d : Pipeline.DomainTag) : d ∈ Pipeline.allDomains.
Proof. by destruct d; apply (bool_decide_unpack _). Qed.

Section ClassifierFacts.

Variable keywords : Pipeline.DomainTag -> list jsstring.
Variable question : jsstring.

Let count := Pipeline.matchCount keywords question.

Lemma matchCount_le_maxCount (d : Pipeline.DomainTag) :
  count d <= Pipeline.maxCount keywords question.
Proof.
  apply max_list_elem_of_le, list_elem_of_fmap.
  exists d. split; [done|]. apply elem_of_allDomains.
Qed.

Lemma maxCount_attained :
  exists d, count d = Pipeline.maxCount keywords question.
Proof.
  pose proof (max_list_elem_of (count <$> Pipeline.allDomains)) as H.
  apply list_elem_of_fmap in H as (d & Hd & _); [|done].
  exists d. symmetry. exact Hd.
Qed.

Lemma maxCount_is (d : Pipeline.DomainTag) :
  (forall d', count d' <= count d) ->
  Pipeline.maxCount keywords question = count d.
Proof.
  intros Hmax. destruct maxCount_attained as [d' Hd'].
  pose proof (matchCount_le_maxCount d). pose proof (Hmax d'). lia.
Qed.

Lemma elem_of_classify (d : Pipeline.DomainTag) :
  d ∈ Pipeline.classify keywords question
  <-> 1 <= count d /\ forall d', count d' <= count d.
Proof.
  unfold Pipeline.classify.
  destruct (decide (Pipeline.maxCount keywords question = 0)) as [Hz|Hnz].
  - split; [by intros ?%elem_of_empty|].
    intros [Hpos _]. pose proof (matchCount_le_maxCount d). lia.
  - rewrite elem_of_list_to_set, list_elem_of_filter. split.
    + intros [Heq _]. fold count in Heq. split; [lia|].
      intros d'. rewrite Heq. apply matchCount_le_maxCount.
    + intros [_ Hmax]. split; [|apply elem_of_allDomains].
      fold count. symmetry. by apply maxCount_is.
Qed.

End ClassifierFacts.

(** C7: when two different domains are tied at the maximum match count and
    that count is at least 1, [classify] returns exactly the domains whose
    count is the maximum: both tied domains are in the result, which
    therefore has at least two members. *)
Theorem classify_returns_all_tied
    (keywords : Pipeline.DomainTag -> list jsstring) (question : jsstring)
    (d1 d2 : Pipeline.DomainTag) :
  d1 <> d2 ->
  1 <= Pipeline.matchCount keywords question d1 ->
  Pipeline.matchCount keywords question d2
  = Pipeline.matchCount keywords question d1 ->
  (forall d, Pipeline.matchCount keywords question d
             <= Pipeline.matchCount keywords question d1) ->
  (forall d, d ∈ Pipeline.classify keywords question
             <-> Pipeline.matchCount keywords question d
                 = Pipeline.matchCount keywords question d1)
  /\ d1 ∈ Pipeline.classify keywords question
  /\ d2 ∈ Pipeline.classify keywords question
  /\ 2 <= size (Pipeline.classify keywords question).
Proof.
  intros Hne Hpos Htie Hmax.
  assert (Hall : forall d, d ∈ Pipeline.classify keywords question
                           <-> Pipeline.matchCount keywords question d
                               = Pipeline.matchCount keywords question d1).
  { intros d. rewrite elem_of_classify. split.
    - intros [_ Hd]. pose proof (Hd d1). pose proof (Hmax d). lia.
    - intros ->. done. }
  assert (H1 : d1 ∈ Pipeline.classify keywords question) by by apply Hall.
  assert (H2 : d2 ∈ Pipeline.classify keywords question) by by apply Hall.
  repeat split; try done; try apply Hall.
  transitivity (size ({[d1]} ∪ {[d2]} : gset Pipeline.DomainTag)).
  - rewrite size_union, !size_singleton; [done|].
    by apply disjoint_singleton_l, not_elem_of_singleton.
  - apply subseteq_size, union_least; by apply singleton_subseteq_l.
Qed.

Lemma classify_returns_all_tied_witness :
  (forall d, d ∈ Pipeline.classify sampleKeywords tiedQuestion
             <-> Pipeline.matchCount sampleKeywords tiedQuestion d
                 = Pipeline.matchCount sampleKeywords tiedQuestion
                     Pipeline.benefits)
  /\ Pipeline.benefits ∈ Pipeline.classify sampleKeywords tiedQuestion
  /\ Pipeline.pharmacy ∈ Pipeline.classify sampleKeywords tiedQuestion
  /\ 2 <= size (Pipeline.classify sampleKeywords tiedQuestion).
Proof.
  apply (classify_returns_all_tied sampleKeywords tiedQuestion
           Pipeline.benefits Pipeline.pharmacy).
  - discriminate.
  - vm_compute. constructor.
  - reflexivity.
  - intros []; vm_compute; repeat constructor.
Defined.

(** ** Filter builder *)

Lemma parseDomain_name (x : jsstring) (d : Pipeline.DomainTag) :
  Pipeline.parseDomain x = Some d -> Pipeline.domainName d = x.
Proof.
  unfold Pipeline.parseDomain.
  repeat case_decide; intros [= <-]; by subst.
Qed.

Lemma parseSourceType_name (x : jsstring) (st : Pipeline.SourceType) :
  Pipeline.parseSourceType x = Some st -> Pipeline.sourceTypeName st = x.
Proof.
  unfold Pipeline.parseSourceType.
  repeat case_decide; intros [= <-]; by subst.
Qed.

Lemma parseClassification_name (x : jsstring) (c : Pipeline.Classification) :
  Pipeline.parseClassification x = Some c -> Pipeline.classificationName c = x.
Proof.
  unfold Pipeline.parseClassification.
  repeat case_decide; intros [= <-]; by subst.
Qed.

Lemma validateField_inr {A : Type} (parse : jsstring -> option A)
    (violated : Pipeline.Constraint) (field : option jsstring) (a : option A) :
  Pipeline.validateField parse violated field = inr a ->
  match field with
  | Some x => exists y, parse x = Some y /\ a = Some y
  | None => a = None
  end.
Proof.
  unfold Pipeline.validateField. destruct field as [x|].
  - destruct (parse x) as [y|]; [|discriminate]. intros [= <-]. eauto.
  - by intros [= <-].
Qed.

Lemma validate_inr (req : QueryRequest.t) (v : Pipeline.ValidRequest) :
  Pipeline.validate req = inr v ->
  Pipeline.vQuestion v = QueryRequest.question req
  /\ 1 <= length (Pipeline.vQuestion v) <= 1000
  /\ Pipeline.validateField Pipeline.parseDomain Pipeline.UnknownDomain
       (QueryRequest.domain_filter req) = inr (Pipeline.vDomain v)
  /\ Pipeline.validateField Pipeline.parseSourceType Pipeline.UnknownSourceType
       (QueryRequest.source_type_filter req) = inr (Pipeline.vSourceType v)
  /\ Pipeline.validateField Pipeline.parseClassification
       Pipeline.UnknownClassification
       (QueryRequest.classification_filter req)
     = inr (Pipeline.vClassification v).
Proof.
  unfold Pipeline.validate.
  destruct (decide (1 <= length (QueryRequest.question req) <= 1000));
    [|discriminate].
  destruct (decide (1 <= QueryRequest.top_k req <= 50)%Z); [|discriminate].
  destruct (Pipeline.validateField Pipeline.parseDomain _ _) as [?|d];
    [discriminate|].
  destruct (Pipeline.validateField Pipeline.parseSourceType _ _) as [?|st];
    [discriminate|].
  destruct (Pipeline.validateField Pipeline.parseClassification _ _) as [?|c];
    [discriminate|].
  by intros [= <-].
Qed.

(** ** Stages *)

Lemma retrieve_inr (P : Pipeline.Providers) (question : jsstring)
    (filter : Pipeline.RetrievalFilter) (k : nat) (log : list Pipeline.Call)
    (matches : list Pipeline.Match) :
  (Pipeline.retrieve P question filter k log).1 = inr matches ->
  exists vector,
    Pipeline.embed P question = inr vector
    /\ Pipeline.search P vector filter k = inr matches
    /\ Pipeline.retrieve P question filter k log
       = (inr matches,
          log ++ [Pipeline.EmbedCall question]
              ++ [Pipeline.SearchCall vector filter k]).
Proof.
  unfold Pipeline.retrieve, mbind, Pipeline.Stage_bind, Pipeline.called. simpl.
  destruct (Pipeline.embed P question) as [detail|vector] eqn:He;
    [discriminate|]. simpl.
  destruct (Pipeline.search P vector filter k) as [detail|found] eqn:Hs;
    [discriminate|]. simpl.
  intros [= <-]. exists vector. by rewrite <- (assoc_L (++)).
Qed.

Lemma execute_unfold (keywords : Pipeline.DomainTag -> list jsstring)
    (P : Pipeline.Providers) (req : QueryRequest.t) (v : Pipeline.ValidRequest)
    (log : list Pipeline.Call) :
  Pipeline.validate req = inr v ->
  Pipeline.execute keywords P req log
  = match Pipeline.retrieve P (Pipeline.vQuestion v)
            (Pipeline.executeFilter keywords v) (Pipeline.vTopK v) log with
    | (inl e, log1) => (inl e, log1)
    | (inr matches, log1) =>
        match Pipeline.generate P (Pipeline.vQuestion v)
                (Pipeline.assemble matches) log1 with
        | (inl e, log2) => (inl e, log2)
        | (inr text, log2) =>
            (inr {| Pipeline.question := Pipeline.vQuestion v;
                    Pipeline.answer := text;
                    Pipeline.sources := matches;
                    Pipeline.domainsSearched :=
                      option_list
                        (Pipeline.domain (Pipeline.executeFilter keywords v));
                    Pipeline.elapsedSeconds :=
                      Pipeline.clock P 1 - Pipeline.clock P 0 |}, log2)
        end
    end.
Proof.
  intros Hv. unfold Pipeline.execute, Pipeline.lift.
  unfold mbind at 1. unfold Pipeline.Stage_bind at 1. rewrite Hv.
  unfold mbind at 1. unfold Pipeline.Stage_bind at 1.
  destruct (Pipeline.retrieve _ _ _ _ _) as [[e|matches] log1]; [done|].
  unfold mbind at 1. unfold Pipeline.Stage_bind at 1.
  by destruct (Pipeline.generate _ _ _ _) as [[e|text] log2].
Qed.

Lemma request_filters (question : jsstring) (s : QueryStore) :
  let r := executeQuery_request question s in
  QueryRequest.domain_filter r
  = (if truthy (domainFilter s) then Some (domainFilter s) else None)
  /\ QueryRequest.source_type_filter r
     = (if truthy (sourceTypeFilter s) then Some (sourceTypeFilter s) else None)
  /\ QueryRequest.classification_filter r
     = (if truthy (classificationFilter s) then Some (classificationFilter s)
        else None).
Proof.
  simpl. unfold or_undefined.
  by destruct (domainFilter s), (sourceTypeFilter s), (classificationFilter s).
Qed.

Lemma executeFilter_of_request
    (keywords : Pipeline.DomainTag -> list jsstring) (req : QueryRequest.t)
    (v : Pipeline.ValidRequest) :
  Pipeline.validate req = inr v ->
  let f := Pipeline.executeFilter keywords v in
  (forall x, QueryRequest.domain_filter req = Some x ->
             exists d, Pipeline.domainName d = x /\ Pipeline.domain f = Some d)
  /\ (forall x, QueryRequest.source_type_filter req = Some x ->
                exists st, Pipeline.sourceTypeName st = x
                           /\ Pipeline.sourceType f = Some st)
  /\ (forall x, QueryRequest.classification_filter req = Some x ->
                exists c, Pipeline.classificationName c = x
                          /\ Pipeline.classification f = Some c)
  /\ (QueryRequest.source_type_filter req = None -> Pipeline.sourceType f = None)
  /\ (QueryRequest.classification_filter req = None ->
      Pipeline.classification f = None).
Proof.
  intros Hv f.
  destruct (validate_inr _ _ Hv) as (_ & _ & Hd & Hst & Hc).
  apply validateField_inr in Hd, Hst, Hc. subst f.
  split; [|split; [|split; [|split]]].
  - intros x Hx. rewrite Hx in Hd. destruct Hd as (d & Hp & Hvd).
    exists d. split; [by apply parseDomain_name|].
    unfold Pipeline.executeFilter. simpl. by rewrite Hvd.
  - intros x Hx. rewrite Hx in Hst. destruct Hst as (st & Hp & Hvst).
    exists st. split; [by apply parseSourceType_name | done].
  - intros x Hx. rewrite Hx in Hc. destruct Hc as (c & Hp & Hvc).
    exists c. split; [by apply parseClassification_name | done].
  - intros Hx. by rewrite Hx in Hst.
  - intros Hx. by rewrite Hx in Hc.
Qed.

Lemma parseDomain_of_name (d : Pipeline.DomainTag) :
  Pipeline.parseDomain (Pipeline.domainName d) = Some d.
Proof. by destruct d. Qed.

Lemma parseSourceType_of_name (st : Pipeline.SourceType) :
  Pipeline.parseSourceType (Pipeline.sourceTypeName st) = Some st.
Proof. by destruct st. Qed.

Lemma parseClassification_of_name (c : Pipeline.Classification) :
  Pipeline.parseClassification (Pipeline.classificationName c) = Some c.
Proof. by destruct c. Qed.

Lemma validateField_cases {A : Type} (parse : jsstring -> option A)
    (name : A -> jsstring) (violated : Pipeline.Constraint)
    (field : option jsstring) :
  (forall x a, parse x = Some a -> name a = x) ->
  (forall a, parse (name a) = Some a) ->
  match Pipeline.validateField parse violated field with
  | inl e =>
      e = Pipeline.ValidationFailure violated
      /\ exists x, field = Some x /\ forall a, name a <> x
  | inr _ => forall x, field = Some x -> exists a, name a = x
  end.
Proof.
  intros Hname Hparse. unfold Pipeline.validateField.
  destruct field as [x|]; [|done].
  destruct (parse x) as [a|] eqn:Hx.
  - intros ? [= <-]. exists a. by apply Hname.
  - split; [done|]. exists x. split; [done|].
    intros a <-. by rewrite Hparse in Hx.
Qed.

(** A request passes the validation exactly when its question and [top_k]
    are in range and every filter it carries is a recognised name. *)
Lemma validate_succeeds_iff (req : QueryRequest.t) :
  (exists v, Pipeline.validate req = inr v)
  <-> 1 <= length (QueryRequest.question req) <= 1000
      /\ (1 <= QueryRequest.top_k req <= 50)%Z
      /\ (forall x, QueryRequest.domain_filter req = Some x ->
                    exists d, Pipeline.domainName d = x)
      /\ (forall x, QueryRequest.source_type_filter req = Some x ->
                    exists st, Pipeline.sourceTypeName st = x)
      /\ (forall x, QueryRequest.classification_filter req = Some x ->
                    exists c, Pipeline.classificationName c = x).
Proof.
  pose proof (validateField_cases Pipeline.parseDomain Pipeline.domainName
                Pipeline.UnknownDomain (QueryRequest.domain_filter req)
                parseDomain_name parseDomain_of_name) as Hd.
  pose proof (validateField_cases Pipeline.parseSourceType
                Pipeline.sourceTypeName Pipeline.UnknownSourceType
                (QueryRequest.source_type_filter req)
                parseSourceType_name parseSourceType_of_name) as Hst.
  pose proof (validateField_cases Pipeline.parseClassification
                Pipeline.classificationName Pipeline.UnknownClassification
                (QueryRequest.classification_filter req)
                parseClassification_name parseClassification_of_name) as Hc.
  unfold Pipeline.validate.
  destruct (decide (1 <= length (QueryRequest.question req) <= 1000)) as [Hq|Hq];
    [|split; [by intros [v ?] | by intros [? _]]].
  destruct (decide (1 <= QueryRequest.top_k req <= 50)%Z) as [Hk|Hk];
    [|split; [by intros [v ?] | by intros (_ & ? & _)]].
  destruct (Pipeline.validateField Pipeline.parseDomain _ _) as [?|d].
  { destruct Hd as (_ & x & Hx & Hno). split; [by intros [v ?]|].
    intros (_ & _ & H & _). destruct (H x Hx) as [a Ha]. by destruct (Hno a). }
  destruct (Pipeline.validateField Pipeline.parseSourceType _ _) as [?|st].
  { destruct Hst as (_ & x & Hx & Hno). split; [by intros [v ?]|].
    intros (_ & _ & _ & H & _). destruct (H x Hx) as [a Ha].
    by destruct (Hno a). }
  destruct (Pipeline.validateField Pipeline.parseClassification _ _) as [?|c].
  { destruct Hc as (_ & x & Hx & Hno). split; [by intros [v ?]|].
    intros (_ & _ & _ & _ & H). destruct (H x Hx) as [a Ha].
    by destruct (Hno a). }
  split; [done | eauto].
Qed.

Lemma validate_inl (req : QueryRequest.t) (e : Pipeline.TypedError) :
  Pipeline.validate req = inl e -> exists violated, e = Pipeline.ValidationFailure violated.
Proof.
  unfold Pipeline.validate, Pipeline.validateField.
  repeat case_decide; repeat case_match; intros ?; simplify_eq; eauto.
Qed.

Lemma buildFilter_detected (st : option Pipeline.SourceType)
    (c : option Pipeline.Classification) (detected : gset Pipeline.DomainTag)
    (d : Pipeline.DomainTag) :
  Pipeline.domain (Pipeline.buildFilter None st c detected) = Some d
  <-> detected = {[d]}.
Proof.
  unfold Pipeline.buildFilter. cbn [Pipeline.domain].
  destruct (elements detected) as [|d1 [|d2 rest]] eqn:He.
  - split; [done|]. intros ->. by rewrite elements_singleton in He.
  - split.
    + intros [= ->]. rewrite <- (list_to_set_elements_L detected), He.
      simpl. by rewrite (right_id_L ∅ (∪)).
    + intros ->. rewrite elements_singleton in He. by injection He as ->.
  - split; [done|]. intros ->. by rewrite elements_singleton in He.
Qed.

Lemma generate_log_tail (P : Pipeline.Providers) (question : jsstring)
    (context : Pipeline.Context) (log log' : list Pipeline.Call)
    (r : Pipeline.TypedError + jsstring) :
  Pipeline.generate P question context log = (r, log') ->
  log' = log
  \/ exists prompt temperature,
      log' = log ++ [Pipeline.GenerateCall prompt temperature].
Proof.
  destruct context as [|entry context]; simpl.
  - intros [= _ <-]. by left.
  - unfold mbind, Pipeline.Stage_bind, Pipeline.called.
    destruct (Pipeline.generateText P _ _); intros [= _ <-]; right; eauto.
Qed.

Lemma execute_log (keywords : Pipeline.DomainTag -> list jsstring)
    (P : Pipeline.Providers) (req : QueryRequest.t) (v : Pipeline.ValidRequest)
    (result : Pipeline.QueryResult) (log : list Pipeline.Call) :
  Pipeline.validate req = inr v ->
  Pipeline.execute keywords P req [] = (inr result, log) ->
  Pipeline.domainsSearched result
  = option_list (Pipeline.domain (Pipeline.executeFilter keywords v))
  /\ exists vector tail,
      log = [Pipeline.EmbedCall (Pipeline.vQuestion v);
             Pipeline.SearchCall vector (Pipeline.executeFilter keywords v)
               (Pipeline.vTopK v)] ++ tail
      /\ (tail = []
          \/ exists prompt temperature,
              tail = [Pipeline.GenerateCall prompt temperature]).
Proof.
  intros Hv. rewrite (execute_unfold _ _ _ _ _ Hv).
  destruct (Pipeline.retrieve _ _ _ _ _) as [[e|matches] log1] eqn:Hr;
    [discriminate|].
  assert (Hr1 : (Pipeline.retrieve P (Pipeline.vQuestion v)
                   (Pipeline.executeFilter keywords v)
                   (Pipeline.vTopK v) []).1 = inr matches)
    by by rewrite Hr.
  apply retrieve_inr in Hr1 as (vector & _ & _ & Hrun).
  rewrite Hr in Hrun. injection Hrun as ->.
  destruct (Pipeline.generate P _ _ _) as [[e|text] log2] eqn:Hg;
    [discriminate|].
  intros [= <- <-]. split; [done|]. exists vector.
  apply generate_log_tail in Hg as [->|(prompt & t & ->)].
  - exists []. split; [done | by left].
  - exists [Pipeline.GenerateCall prompt t]. split; [done | right; eauto].
Qed.

(** C4, as the pipeline and the client have it: the client forwards each
    non-empty filter unchanged and sends null for an empty one;
    [buildFilter] takes an explicit domain whatever the classifier
    detected and takes source type and classification from the explicit
    input alone; a request passes validation exactly when its question and
    [top_k] are in range and every filter it carries is a recognised name,
    and one that does not is answered with a validation failure before any
    provider is called; for a request that passes, the one search of
    [execute] is under the filter that has, for every filter the request
    carries, the value of that name, whatever the keyword table, "any" for
    a null source type or classification, and for a null domain the
    classifier's domain: the detected one when it detects exactly one,
    "any" otherwise; [domainsSearched] reports that domain. *)
Theorem explicit_filter_verbatim :
  (forall question s,
      let r := executeQuery_request question s in
      QueryRequest.domain_filter r
      = (if truthy (domainFilter s) then Some (domainFilter s) else None)
      /\ QueryRequest.source_type_filter r
         = (if truthy (sourceTypeFilter s) then Some (sourceTypeFilter s)
            else None)
      /\ QueryRequest.classification_filter r
         = (if truthy (classificationFilter s)
            then Some (classificationFilter s) else None))
  /\ (forall explicitDomain st c detected,
         let f := Pipeline.buildFilter explicitDomain st c detected in
         Pipeline.sourceType f = st
         /\ Pipeline.classification f = c
         /\ match explicitDomain with
            | Some v => Pipeline.domain f = Some v
            | None =>
                (forall d, Pipeline.domain f = Some d <-> detected = {[d]})
                /\ (Pipeline.domain f = None <-> size detected <> 1)
            end)
  /\ (forall req,
         (exists v, Pipeline.validate req = inr v)
         <-> 1 <= length (QueryRequest.question req) <= 1000
             /\ (1 <= QueryRequest.top_k req <= 50)%Z
             /\ (forall x, QueryRequest.domain_filter req = Some x ->
                           exists d, Pipeline.domainName d = x)
             /\ (forall x, QueryRequest.source_type_filter req = Some x ->
                           exists st, Pipeline.sourceTypeName st = x)
             /\ (forall x, QueryRequest.classification_filter req = Some x ->
                           exists c, Pipeline.classificationName c = x))
  /\ (forall keywords P req,
         match Pipeline.validate req with
         | inl e =>
             Pipeline.execute keywords P req [] = (inl e, [])
             /\ exists violated, e = Pipeline.ValidationFailure violated
         | inr v =>
             let f := Pipeline.executeFilter keywords v in
             let detected :=
               Pipeline.classify keywords (QueryRequest.question req) in
             match QueryRequest.domain_filter req with
             | Some x =>
                 exists d, Pipeline.domainName d = x
                           /\ Pipeline.domain f = Some d
             | None =>
                 (forall d, Pipeline.domain f = Some d <-> detected = {[d]})
                 /\ (Pipeline.domain f = None <-> size detected <> 1)
             end
             /\ match QueryRequest.source_type_filter req with
                | Some x =>
                    exists st, Pipeline.sourceTypeName st = x
                               /\ Pipeline.sourceType f = Some st
                | None => Pipeline.sourceType f = None
                end
             /\ match QueryRequest.classification_filter req with
                | Some x =>
                    exists c, Pipeline.classificationName c = x
                              /\ Pipeline.classification f = Some c
                | None => Pipeline.classification f = None
                end
             /\ (forall result log,
                    Pipeline.execute keywords P req [] = (inr result, log) ->
                    Pipeline.domainsSearched result
                    = option_list (Pipeline.domain f)
                    /\ (exists vector,
                           Pipeline.SearchCall vector f (Pipeline.vTopK v)
                           ∈ log)
                    /\ (forall vector' f' k',
                           Pipeline.SearchCall vector' f' k' ∈ log ->
                           f' = f))
         end).
Proof.
  assert (Hnone : forall st c detected,
             let f := Pipeline.buildFilter None st c detected in
             (forall d, Pipeline.domain f = Some d <-> detected = {[d]})
             /\ (Pipeline.domain f = None <-> size detected <> 1)).
  { intros st c detected f. split; [intros d; apply buildFilter_detected|].
    destruct (Pipeline.domain f) as [d|] eqn:Hf.
    - apply buildFilter_detected in Hf as ->. rewrite size_singleton.
      split; done.
    - split; [|done]. intros _ Hsize.
      apply size_1_elem_of in Hsize as [d Hd]. apply leibniz_equiv in Hd.
      apply (buildFilter_detected st c) in Hd.
      subst f. by rewrite Hd in Hf. }
  split; [exact request_filters|]. split; [|split].
  - intros explicitDomain st c detected f.
    split; [done|]. split; [done|].
    destruct explicitDomain as [v|]; [done | apply Hnone].
  - exact validate_succeeds_iff.
  - intros keywords P req. destruct (Pipeline.validate req) as [e|v] eqn:Hv.
    { split; [|by eapply validate_inl].
      unfold Pipeline.execute, Pipeline.lift, mbind, Pipeline.Stage_bind.
      by rewrite Hv. }
    intros f detected.
    destruct (executeFilter_of_request keywords req v Hv)
      as (Hd & Hst & Hc & Hst0 & Hc0).
    destruct (validate_inr _ _ Hv) as (Hq & _ & Hvd & _ & _).
    apply validateField_inr in Hvd.
    split; [|split; [|split]].
    + destruct (QueryRequest.domain_filter req) as [x|]; [by apply Hd|].
      subst f detected. unfold Pipeline.executeFilter.
      rewrite Hvd, Hq. apply Hnone.
    + destruct (QueryRequest.source_type_filter req) as [x|];
        [by apply Hst | by apply Hst0].
    + destruct (QueryRequest.classification_filter req) as [x|];
        [by apply Hc | by apply Hc0].
    + intros result log Hrun.
      destruct (execute_log keywords P req v result log Hv Hrun)
        as (Hsearched & vector & tail & -> & Htail).
      split; [done|]. split.
      * exists vector. apply list_elem_of_further, list_elem_of_here.
      * intros vector' f' k' Hin.
        apply elem_of_cons in Hin as [Hin|Hin]; [discriminate|].
        apply elem_of_cons in Hin as [Hin|Hin]; [by injection Hin|].
        destruct Htail as [->|(prompt & t & ->)].
        -- by apply elem_of_nil in Hin.
        -- apply list_elem_of_singleton in Hin. discriminate.
Qed.

(** C4 where it fails.  The client sends the question "Is this drug
    regulated?" with no filter chosen: the request carries null in all
    three filter fields and passes validation, the classifier detects
    pharmacy alone, and the search runs restricted to pharmacy, as
    [domains_searched] reports.  And with "PII" chosen in the
    classification select the request carries "PII", which is not one of
    the names restricted and public: it is answered with a validation
    failure and nothing is searched. *)
Lemma unset_domain_restricted_by_classifier :
  exists r v result log r2,
    (run [InputChange (js "Is this drug regulated?"); FormSubmit]
       initialStore).2 = [r]
    /\ QueryRequest.domain_filter r = None
    /\ QueryRequest.source_type_filter r = None
    /\ QueryRequest.classification_filter r = None
    /\ Pipeline.validate r = inr v
    /\ elements (Pipeline.classify sampleKeywords (QueryRequest.question r))
       = [Pipeline.pharmacy]
    /\ Pipeline.executeFilter sampleKeywords v
       = {| Pipeline.domain := Some Pipeline.pharmacy;
            Pipeline.sourceType := None;
            Pipeline.classification := None |}
    /\ Pipeline.execute sampleKeywords emptyCorpus r [] = (inr result, log)
    /\ Pipeline.SearchCall [1 # 2; 1 # 4]
         {| Pipeline.domain := Some Pipeline.pharmacy;
            Pipeline.sourceType := None;
            Pipeline.classification := None |} 10 ∈ log
    /\ Pipeline.domainsSearched result = [Pipeline.pharmacy]
    /\ (run [ClassificationSelect 1; InputChange (js "Is this drug regulated?");
             FormSubmit] initialStore).2 = [r2]
    /\ QueryRequest.classification_filter r2 = Some (js "PII")
    /\ Pipeline.execute sampleKeywords emptyCorpus r2 []
       = (inl (Pipeline.ValidationFailure Pipeline.UnknownClassification), []).
Proof.
  do 5 eexists.
  split; [reflexivity|]. do 3 (split; [reflexivity|]).
  split; [reflexivity|]. split; [by vm_compute|].
  split; [by vm_compute|]. split; [by vm_compute|].
  split; [apply list_elem_of_further, list_elem_of_here|].
  split; [reflexivity|]. split; [reflexivity|].
  split; reflexivity.
Qed.

(** ** Context assembler *)

Lemma assembleFrom_length (index : nat) (matches : list Pipeline.Match) :
  length (Pipeline.assembleFrom index matches) = length matches.
Proof.
  revert index. induction matches as [|m rest IH]; intros index; simpl;
    [done | by rewrite IH].
Qed.

Lemma assembleFrom_lookup (index i : nat) (matches : list Pipeline.Match)
    (m : Pipeline.Match) :
  matches !! i = Some m ->
  Pipeline.assembleFrom index matches !! i
  = Some {| Pipeline.citationIndex := index + i;
            Pipeline.truncatedText :=
              take Pipeline.contextBudget
                (Pipeline.Document.text (Pipeline.document m));
            Pipeline.metadata := Pipeline.document m |}.
Proof.
  revert index i. induction matches as [|m0 rest IH]; intros index i; [done|].
  destruct i as [|i]; simpl.
  - intros [= ->]. by rewrite Nat.add_0_r.
  - intros Hi. rewrite Nat.add_succ_r. exact (IH (S index) i Hi).
Qed.

(** C5: [assemble] returns as many entries as it is given matches; entry
    [i] carries citation index [i + 1], the document of match [i] and its
    text cut to the budget.  The component labels the source at position
    [i] with [i + 1], so a source card and the context entry with the same
    index show the same document. *)
Theorem assemble_citation_correspondence (matches : list Pipeline.Match) :
  length (Pipeline.assemble matches) = length matches
  /\ (forall i m,
         matches !! i = Some m ->
         exists entry,
           Pipeline.assemble matches !! i = Some entry
           /\ Pipeline.citationIndex entry = i + 1
           /\ Pipeline.metadata entry = Pipeline.document m
           /\ Pipeline.truncatedText entry
              = take 1500 (Pipeline.Document.text (Pipeline.document m)))
  /\ (forall sources : list Source.t,
         length (renderSources sources) = length sources
         /\ forall i src,
             sources !! i = Some src ->
             renderSources sources !! i
             = Some {| source := src; index := i + 1 |})
  /\ (forall i m,
         matches !! i = Some m ->
         exists entry card,
           Pipeline.assemble matches !! i = Some entry
           /\ renderSources (Pipeline.toSource <$> matches) !! i = Some card
           /\ index card = Pipeline.citationIndex entry
           /\ Source.id (source card)
              = Pipeline.Document.id (Pipeline.metadata entry)).
Proof.
  split; [apply assembleFrom_length|].
  split.
  { intros i m Hi. eexists. split; [by apply assembleFrom_lookup|].
    simpl. repeat split. lia. }
  split.
  { intros sources. unfold renderSources. split; [apply length_imap|].
    intros i src Hi. by rewrite list_lookup_imap, Hi. }
  intros i m Hi. eexists. eexists.
  split; [by apply assembleFrom_lookup|].
  split.
  { unfold renderSources. rewrite list_lookup_imap, list_lookup_fmap, Hi.
    reflexivity. }
  simpl. split; [lia | done].
Qed.

(** ** Empty retrieval *)

(** C6, with the time as the pipeline records it: for a valid request
    whose retrieval returns no match, [execute] succeeds: the result has
    no sources, its answer is the fixed, non-empty "insufficient
    information" message, and the log holds the embedding and the search
    and no call to the generation provider.  The recorded time is the
    second clock reading minus the first: it is positive exactly when the
    clock advanced between the two readings, and zero when it read the
    same.  The JSON form of the result has the same empty sources, answer
    and time. *)
Theorem execute_empty_retrieval
    (keywords : Pipeline.DomainTag -> list jsstring) (P : Pipeline.Providers)
    (req : QueryRequest.t) (v : Pipeline.ValidRequest) :
  Pipeline.validate req = inr v ->
  (Pipeline.retrieve P (Pipeline.vQuestion v)
     (Pipeline.executeFilter keywords v) (Pipeline.vTopK v) []).1 = inr [] ->
  exists result log,
    Pipeline.execute keywords P req [] = (inr result, log)
    /\ Pipeline.sources result = []
    /\ Pipeline.answer result = Pipeline.insufficientInformation
    /\ truthy (Pipeline.answer result) = true
    /\ Forall (fun c => Pipeline.isGenerateCall c = false) log
    /\ length log = 2
    /\ Pipeline.elapsedSeconds result
       = (Pipeline.clock P 1 - Pipeline.clock P 0)%Q
    /\ ((0 < Pipeline.elapsedSeconds result)%Q
        <-> (Pipeline.clock P 0 < Pipeline.clock P 1)%Q)
    /\ ((Pipeline.elapsedSeconds result == 0)%Q
        <-> (Pipeline.clock P 0 == Pipeline.clock P 1)%Q)
    /\ QueryResult.sources (Pipeline.toJSON result) = []
    /\ QueryResult.answer (Pipeline.toJSON result)
       = Pipeline.insufficientInformation
    /\ QueryResult.query_time_seconds (Pipeline.toJSON result)
       = Pipeline.elapsedSeconds result.
Proof.
  intros Hv Hr.
  apply retrieve_inr in Hr as (vector & _ & _ & Hrun).
  do 2 eexists. split.
  { rewrite (execute_unfold _ _ _ _ _ Hv), Hrun. reflexivity. }
  cbn [Pipeline.sources Pipeline.answer Pipeline.elapsedSeconds
       Pipeline.toJSON QueryResult.sources QueryResult.answer
       QueryResult.query_time_seconds fmap list_fmap].
  repeat split; try done.
  - repeat constructor.
  - intros H. by apply Qlt_minus_iff.
  - intros H. by apply Qlt_minus_iff in H.
  - intros H.
    assert (E : (Pipeline.clock P 1
                 == (Pipeline.clock P 1 - Pipeline.clock P 0)
                    + Pipeline.clock P 0)%Q) by ring.
    rewrite H in E. rewrite E. ring.
  - intros H. rewrite H. ring.
Qed.

Lemma execute_empty_retrieval_witness :
  exists result log,
    Pipeline.execute sampleKeywords emptyCorpus tiedRequest [] = (inr result, log)
    /\ Pipeline.sources result = []
    /\ Pipeline.answer result = Pipeline.insufficientInformation
    /\ truthy (Pipeline.answer result) = true
    /\ Forall (fun c => Pipeline.isGenerateCall c = false) log
    /\ length log = 2
    /\ Pipeline.elapsedSeconds result
       = (Pipeline.clock emptyCorpus 1 - Pipeline.clock emptyCorpus 0)%Q
    /\ ((0 < Pipeline.elapsedSeconds result)%Q
        <-> (Pipeline.clock emptyCorpus 0 < Pipeline.clock emptyCorpus 1)%Q)
    /\ ((Pipeline.elapsedSeconds result == 0)%Q
        <-> (Pipeline.clock emptyCorpus 0 == Pipeline.clock emptyCorpus 1)%Q)
    /\ QueryResult.sources (Pipeline.toJSON result) = []
    /\ QueryResult.answer (Pipeline.toJSON result)
       = Pipeline.insufficientInformation
    /\ QueryResult.query_time_seconds (Pipeline.toJSON result)
       = Pipeline.elapsedSeconds result.
Proof.
  apply (execute_empty_retrieval sampleKeywords emptyCorpus tiedRequest
           tiedValid); reflexivity.
Defined.

(** C6 where it fails: over a corpus in which nothing matches and with a
    clock that reads the same at the start and at the end of the query,
    [execute] succeeds with no sources and the "insufficient information"
    answer, without a call to the generation provider, and the recorded
    [query_time_seconds] is 0, which is not positive. *)
Lemma execute_empty_retrieval_zero_time :
  let result :=
    {| Pipeline.question := tiedQuestion;
       Pipeline.answer := Pipeline.insufficientInformation;
       Pipeline.sources := [];
       Pipeline.domainsSearched := [];
       Pipeline.elapsedSeconds := 0 |} in
  let unrestricted :=
    {| Pipeline.domain := None;
       Pipeline.sourceType := None;
       Pipeline.classification := None |} in
  Pipeline.validate tiedRequest = inr tiedValid
  /\ (Pipeline.retrieve stoppedClock tiedQuestion unrestricted 10 []).1
     = inr []
  /\ Pipeline.execute sampleKeywords stoppedClock tiedRequest []
     = (inr result,
        [Pipeline.EmbedCall tiedQuestion;
         Pipeline.SearchCall [1 # 2; 1 # 4] unrestricted 10])
  /\ QueryResult.sources (Pipeline.toJSON result) = []
  /\ QueryResult.answer (Pipeline.toJSON result)
     = Pipeline.insufficientInformation
  /\ QueryResult.query_time_seconds (Pipeline.toJSON result) = 0%Q
  /\ (QueryResult.query_time_seconds (Pipeline.toJSON result) <= 0)%Q.
Proof.
  intros result unrestricted.
  split; [reflexivity|]. split; [reflexivity|].
  split; [by vm_compute|]. by repeat split.
Qed.

(** * Evaluations on the sample data *)

Example trim_inner_blank_kept : trim (js "  a b  ") = js "a b".
Proof. reflexivity. Qed.

Example trim_unicode_blank : trim [160; 9; 10; 8195; 65279]%N = [].
Proof. reflexivity. Qed.

Example wholeWordMatches_drug :
  Pipeline.wholeWordMatches (js "drug") None (js "Drugs and DRUG. drug_x drug")
  = 2.
Proof. reflexivity. Qed.

Example classify_tiedQuestion :
  elements (Pipeline.classify sampleKeywords tiedQuestion)
  = [Pipeline.benefits; Pipeline.pharmacy]
  /\ Pipeline.domain (Pipeline.executeFilter sampleKeywords tiedValid) = None.
Proof. split; vm_compute; reflexivity. Qed.

Example classify_no_keyword :
  Pipeline.classify sampleKeywords (js "hello") = ∅.
Proof. reflexivity. Qed.

Example explicit_compliance_wins :
  elements (Pipeline.classify sampleKeywords (Pipeline.vQuestion complianceRequest))
  = [Pipeline.pharmacy]
  /\ Pipeline.domain (Pipeline.executeFilter sampleKeywords complianceRequest)
     = Some Pipeline.compliance.
Proof. split; vm_compute; reflexivity. Qed.

(** The specification's classification values are "restricted" and
    "public": the "PII" that the client's select offers is not one of
    them, and a request carrying it does not pass the modelled validation. *)
Example PII_fails_modelled_validation :
  Pipeline.parseClassification (js "PII") = None
  /\ Pipeline.validate (api.query (js "q") None None None (Some (js "PII")))
     = inl (Pipeline.ValidationFailure Pipeline.UnknownClassification).
Proof. split; reflexivity. Qed.

(** Scenario C from the client: "compliance" chosen in the domain select,
    a question with a pharmacy keyword. *)
Example client_compliance_filter :
  exists r,
    (run [DomainSelect 5; InputChange (js "Is this drug regulated?"); FormSubmit]
       initialStore).2 = [r]
    /\ Pipeline.validate r = inr complianceRequest
    /\ Pipeline.domain (Pipeline.executeFilter sampleKeywords complianceRequest)
       = Some Pipeline.compliance.
Proof. eexists. split; [reflexivity|]. split; vm_compute; reflexivity. Qed.

Example validate_tiedRequest : Pipeline.validate tiedRequest = inr tiedValid.
Proof. reflexivity. Qed.

Example history_of_101_queries :
  length
    (history
       (run (mjoin
               (replicate 101
                  [ExampleClick (js "q");
                   Settled (okFetch earlierResult (api.query [] None None None None))
                     (js "id") (js "now")]))
          initialStore).1)
  = 100.
Proof. vm_compute. reflexivity. Qed.

(** * More properties of the query client *)

(** ** [fetchAPI] *)

(** [fetchAPI] returns a value exactly when the response arrived, is ok and
    its body parsed; a response that is not ok never yields a value,
    whatever its body, and its error is either the failure to read the
    body or the "API error" with status and body. *)
Theorem fetchAPI_returns_iff {T : Type} (fetched : settled (Response T)) :
  (forall value,
      api.fetchAPI fetched = inr value
      <-> exists res, fetched = inr res /\ ok res = true /\ json res = inr value)
  /\ (forall res,
         fetched = inr res -> ok res = false ->
         exists e,
           api.fetchAPI fetched = inl e
           /\ (text res = inl e
               \/ exists detail,
                   text res = inr detail
                   /\ e = ThrownError (js "API error " ++ showN (status res)
                                       ++ js ": " ++ detail)))
  /\ (forall e, fetched = inl e -> api.fetchAPI fetched = inl e).
Proof.
  split; [|split].
  - intros value. split.
    + destruct fetched as [e|res]; simpl; [discriminate|].
      destruct (ok res) eqn:Hok; simpl.
      * intros Hj. by exists res.
      * by destruct (text res).
    + intros (res & -> & Hok & Hj). simpl. by rewrite Hok.
  - intros res -> Hok. simpl. rewrite Hok. simpl.
    destruct (text res) as [e|detail]; eexists; split; eauto.
  - by intros e ->.
Qed.

(** ** The filters of a request *)

Lemma or_null_not_empty (o : option jsstring) : or_null o <> Some [].
Proof. destruct o as [[|c s]|]; simpl; congruence. Qed.

(** No request carries the empty string as a filter: [api.query] turns an
    empty or missing filter into null, for any arguments, and so does
    every request the client sends. *)
Theorem request_filters_never_empty :
  (forall question topK d st c,
      let r := api.query question topK d st c in
      QueryRequest.domain_filter r <> Some []
      /\ QueryRequest.source_type_filter r <> Some []
      /\ QueryRequest.classification_filter r <> Some []
      /\ (d = Some [] -> QueryRequest.domain_filter r = None))
  /\ (forall evs s r,
         r ∈ (run evs s).2 ->
         QueryRequest.domain_filter r <> Some []
         /\ QueryRequest.source_type_filter r <> Some []
         /\ QueryRequest.classification_filter r <> Some []).
Proof.
  split.
  - intros question topK d st c r. subst r. simpl.
    repeat split; try apply or_null_not_empty. by intros ->.
  - intros evs s r Hr.
    destruct (run_invariant (fun _ => True)
                (fun r => QueryRequest.domain_filter r <> Some []
                          /\ QueryRequest.source_type_filter r <> Some []
                          /\ QueryRequest.classification_filter r <> Some []))
      with (evs := evs) (s := s) as [_ Hall]; [|done|].
    + intros ev s0 _. split; [done|]. apply Forall_forall. intros r0 Hr0.
      apply step_sent in Hr0 as (q & s1 & -> & _). simpl.
      repeat split; apply or_null_not_empty.
    + by eapply Forall_forall in Hall.
Qed.

Lemma step_domain_sourceType (ev : event) (s : QueryStore) :
  domainFilter s ∈ domainOptions /\ sourceTypeFilter s ∈ sourceTypeOptions ->
  domainFilter (step ev s).1 ∈ domainOptions
  /\ sourceTypeFilter (step ev s).1 ∈ sourceTypeOptions.
Proof.
  intros [Hd Hst]. destruct ev; simpl; try done.
  - unfold selectChange.
    destruct (domainOptions !! choice) as [value|] eqn:Hv; [|done].
    simpl. split; [by eapply list_elem_of_lookup_2 | done].
  - unfold selectChange.
    destruct (sourceTypeOptions !! choice) as [value|] eqn:Hv; [|done].
    simpl. split; [done | by eapply list_elem_of_lookup_2].
  - unfold selectChange. by destruct (classificationOptions !! choice).
  - split; by apply (bool_decide_unpack _).
  - unfold handleSubmit.
    by destruct (truthy (trim (currentQuery s)) && negb (isLoading s)).
  - by destruct (api.fetchAPI fetched).
Qed.

(** Every request the client sends, starting from the initial store,
    carries a [domain_filter] that is null or one of the six [DOMAINS],
    and a [source_type_filter] that is null, "internal" or "external". *)
Theorem domain_and_source_type_filter_values (evs : list event)
    (r : QueryRequest.t) :
  r ∈ (run evs initialStore).2 ->
  (QueryRequest.domain_filter r = None
   \/ exists d, d ∈ DOMAINS /\ QueryRequest.domain_filter r = Some d)
  /\ QueryRequest.source_type_filter r
     ∈ [None; Some (js "internal"); Some (js "external")].
Proof.
  intros Hr.
  destruct (run_invariant
              (fun s => domainFilter s ∈ domainOptions
                        /\ sourceTypeFilter s ∈ sourceTypeOptions)
              (fun r =>
                 (QueryRequest.domain_filter r = None
                  \/ exists d, d ∈ DOMAINS
                               /\ QueryRequest.domain_filter r = Some d)
                 /\ QueryRequest.source_type_filter r
                    ∈ [None; Some (js "internal"); Some (js "external")]))
    with (evs := evs) (s := initialStore) as [_ Hall].
  - intros ev s Hs. split; [by apply step_domain_sourceType|].
    apply Forall_forall. intros r0 Hr0.
    apply step_sent in Hr0 as (q & s0 & -> & Hd & Hst & _).
    destruct Hs as [Hsd Hsst]. rewrite <- Hd in Hsd. rewrite <- Hst in Hsst.
    simpl. split.
    + unfold domainOptions in Hsd. apply elem_of_cons in Hsd as [->|Hsd].
      * by left.
      * right. exists (domainFilter s0). split; [done|].
        destruct (domainFilter s0) as [|c rest] eqn:He; [|done].
        exfalso. revert Hsd. by apply (bool_decide_unpack _).
    + unfold sourceTypeOptions in Hsst.
      apply elem_of_cons in Hsst as [->|Hsst];
        [by apply (bool_decide_unpack _)|].
      apply elem_of_cons in Hsst as [->|Hsst];
        [by apply (bool_decide_unpack _)|].
      apply list_elem_of_singleton in Hsst as ->.
      by apply (bool_decide_unpack _).
  - split; by apply (bool_decide_unpack _).
  - by eapply Forall_forall in Hall.
Qed.

Lemma domain_and_source_type_filter_values_witness :
  (Some (js "claims") = None
   \/ exists d, d ∈ DOMAINS /\ Some (js "claims") = Some d)
  /\ Some (js "external") ∈ [None; Some (js "internal"); Some (js "external")].
Proof.
  apply (domain_and_source_type_filter_values
           [DomainSelect 2; SourceTypeSelect 2; ExampleClick (js "q")]
           (api.query (js "q") (Some 10%Z) (Some (js "claims"))
              (Some (js "external")) None)).
  apply list_elem_of_singleton. reflexivity.
Defined.

(** The filter toggle is highlighted ([hasFilters] is truthy) exactly when
    the next request would carry at least one filter; "Clear all" turns it
    off, and the request after it carries none. *)
Theorem hasFilters_iff_request_filtered (question : jsstring) (s : QueryStore) :
  (truthy (hasFilters s) = false
   <-> QueryRequest.domain_filter (executeQuery_request question s) = None
       /\ QueryRequest.source_type_filter (executeQuery_request question s) = None
       /\ QueryRequest.classification_filter (executeQuery_request question s)
          = None)
  /\ hasFilters (clearAllFilters s) = []
  /\ executeQuery_request question (clearAllFilters s)
     = api.query question (Some 10%Z) None None None.
Proof.
  split; [|by split].
  unfold hasFilters, or_string. simpl. unfold or_undefined.
  destruct (domainFilter s), (sourceTypeFilter s), (classificationFilter s);
    simpl; split; (done || by intros (? & ? & ?)).
Qed.

(** ** The submit button *)

(** The submit button is disabled exactly when submitting the form would
    send nothing; a submission sends at most one request, and after one
    that sent a request a second submission sends nothing until the query
    settles (the button is disabled). *)
Theorem submitDisabled_iff_nothing_sent (s : QueryStore) :
  (submitDisabled s = true <-> (handleSubmit s).2 = [])
  /\ length (handleSubmit s).2 <= 1
  /\ ((handleSubmit s).2 <> [] ->
      submitDisabled (handleSubmit s).1 = true
      /\ handleSubmit (handleSubmit s).1 = ((handleSubmit s).1, [])).
Proof.
  split; [|split].
  - unfold submitDisabled, handleSubmit.
    by destruct (truthy (trim (currentQuery s))), (isLoading s).
  - unfold handleSubmit.
    destruct (truthy (trim (currentQuery s)) && negb (isLoading s)); simpl; lia.
  - unfold handleSubmit at 1.
    destruct (truthy (trim (currentQuery s))) eqn:Ht, (isLoading s) eqn:Hl;
      simpl; try done.
    intros _. unfold handleSubmit, submitDisabled. rewrite Ht, Hl. simpl.
    by rewrite andb_false_r.
Qed.

Lemma trim_head (s : jsstring) (c : N) :
  head (trim s) = Some c -> isWhiteSpace c = false.
Proof.
  unfold trim, trimEnd. intros Hc.
  destruct (trimStart s) as [|c0 t] eqn:Hs; [done|].
  pose proof (trimStart_head _ _ _ Hs) as Hc0.
  destruct (trimStart_suffix (reverse (c0 :: t))) as [k Hk].
  apply (f_equal reverse) in Hk.
  rewrite reverse_involutive, reverse_app in Hk.
  destruct (reverse (trimStart (reverse (c0 :: t)))) as [|c1 u] eqn:Hu.
  - done.
  - simpl in Hc. injection Hc as ->. simpl in Hk. by injection Hk as -> _.
Qed.

Lemma trim_last (s : jsstring) (c : N) :
  last (trim s) = Some c -> isWhiteSpace c = false.
Proof.
  unfold trim, trimEnd. rewrite last_reverse. intros Hc.
  destruct (trimStart (reverse (trimStart s))) as [|c0 t] eqn:Hs; [done|].
  simpl in Hc. injection Hc as ->. by apply trimStart_head in Hs.
Qed.

(** The question that a form submission sends neither starts nor ends with
    a whitespace character. *)
Theorem submitted_question_trimmed (s : QueryStore) (r : QueryRequest.t) :
  r ∈ (handleSubmit s).2 ->
  (forall c, head (QueryRequest.question r) = Some c -> isWhiteSpace c = false)
  /\ (forall c, last (QueryRequest.question r) = Some c ->
                isWhiteSpace c = false).
Proof.
  unfold handleSubmit.
  destruct (truthy (trim (currentQuery s)) && negb (isLoading s)); simpl;
    [|by intros ?%elem_of_nil].
  intros ->%list_elem_of_singleton. simpl.
  split; intros c; [apply trim_head | apply trim_last].
Qed.

Lemma submitted_question_trimmed_witness :
  (forall c, head (js "why  so") = Some c -> isWhiteSpace c = false)
  /\ (forall c, last (js "why  so") = Some c -> isWhiteSpace c = false).
Proof.
  apply (submitted_question_trimmed (setQuery (js "  why  so ") initialStore)
           (api.query (js "why  so") (Some 10%Z) None None None)).
  apply list_elem_of_singleton. reflexivity.
Defined.

(** ** Successful queries and the result card *)

Lemma QueryResultView_result (s : QueryStore) (result : QueryResult.t) :
  isLoading s = false -> error s = None -> currentResult s = Some result ->
  QueryResultView s
  = Result
      {| shownTime := QueryResult.query_time_seconds result;
         bookmarkButton :=
           (fun item =>
              (QueryHistoryItem.id item, QueryHistoryItem.bookmarked item))
             <$> history s !! 0;
         shownAnswer := QueryResult.answer result;
         shownDomains := QueryResult.domains_searched result;
         sourceCards := renderSources (QueryResult.sources result) |}.
Proof.
  intros Hl He Hr. unfold QueryResultView, renderResult.
  by rewrite Hl, He, Hr.
Qed.

(** After an [executeQuery] call whose request succeeds, the store holds
    the result with no error and nothing loading, and the component shows
    its answer, time and domains, one card per source, and a bookmark
    button that targets the history entry just created, not yet
    bookmarked; clicking the button shows it bookmarked, clicking again
    shows it as before. *)
Theorem executeQuery_success_view
    (question : jsstring)
    (fetched : QueryRequest.t -> settled (Response QueryResult.t))
    (result : QueryResult.t) (uuid now : jsstring) (s : QueryStore) :
  api.fetchAPI (fetched (executeQuery_request question s)) = inr result ->
  let s' := executeQuery question fetched uuid now s in
  let shown marked :=
    Result
      {| shownTime := QueryResult.query_time_seconds result;
         bookmarkButton := Some (uuid, marked);
         shownAnswer := QueryResult.answer result;
         shownDomains := QueryResult.domains_searched result;
         sourceCards := renderSources (QueryResult.sources result) |} in
  currentResult s' = Some result
  /\ isLoading s' = false
  /\ error s' = None
  /\ currentQuery s' = question
  /\ QueryResultView s' = shown false
  /\ QueryResultView (toggleBookmark uuid s') = shown true
  /\ QueryResultView (toggleBookmark uuid (toggleBookmark uuid s'))
     = shown false
  /\ length (renderSources (QueryResult.sources result))
     = length (QueryResult.sources result).
Proof.
  intros Hok s' shown. subst s' shown. unfold executeQuery. rewrite Hok.
  set (s' := executeQuery_settle _ _ _ _).
  assert (Hh : history s'
               = historyItem result uuid now :: take 99 (history s))
    by reflexivity.
  assert (Hon : toggleItem uuid (historyItem result uuid now)
                = {| QueryHistoryItem.id := uuid;
                     QueryHistoryItem.question := QueryResult.question result;
                     QueryHistoryItem.answer := QueryResult.answer result;
                     QueryHistoryItem.sources_count :=
                       length (QueryResult.sources result);
                     QueryHistoryItem.query_time_seconds :=
                       QueryResult.query_time_seconds result;
                     QueryHistoryItem.timestamp := now;
                     QueryHistoryItem.bookmarked := true |}).
  { unfold toggleItem, historyItem. simpl. by rewrite decide_True. }
  split; [done|]. split; [done|]. split; [done|]. split; [done|].
  split; [done|]. split; [|split].
  - rewrite (QueryResultView_result _ result) by done.
    unfold toggleBookmark, setHistory. cbn [history].
    by rewrite Hh, fmap_cons, Hon.
  - rewrite (QueryResultView_result _ result) by done.
    unfold toggleBookmark, setHistory. cbn [history].
    by rewrite Hh, !fmap_cons, toggleItem_twice.
  - unfold renderSources. apply length_imap.
Qed.

Lemma executeQuery_success_view_witness :
  QueryResultView
    (toggleBookmark (js "id-1")
       (executeQuery (js "first") (okFetch earlierResult) (js "id-1") []
          initialStore))
  = Result
      {| shownTime := QueryResult.query_time_seconds earlierResult;
         bookmarkButton := Some (js "id-1", true);
         shownAnswer := QueryResult.answer earlierResult;
         shownDomains := QueryResult.domains_searched earlierResult;
         sourceCards := renderSources (QueryResult.sources earlierResult) |}.
Proof.
  pose proof (executeQuery_success_view (js "first") (okFetch earlierResult)
                earlierResult (js "id-1") [] initialStore eq_refl)
    as (_ & _ & _ & _ & _ & Hmarked & _).
  exact Hmarked.
Defined.

(** A success does not clear [error]: when a result settles on a store
    that holds a non-empty error (left by another query that failed while
    this one was pending), the result is installed and recorded in the
    history, and the component still shows the "Query Failed" card. *)
Theorem success_settles_behind_error
    (result : QueryResult.t) (uuid now message : jsstring) (s : QueryStore) :
  error s = Some message ->
  truthy message = true ->
  let s' := executeQuery_settle (inr result) uuid now s in
  currentResult s' = Some result
  /\ history s' !! 0 = Some (historyItem result uuid now)
  /\ error s' = Some message
  /\ QueryResultView s' = QueryFailed message.
Proof.
  intros He Ht s'. subst s'. repeat split; [done|].
  unfold QueryResultView. simpl. by rewrite He, Ht.
Qed.

Lemma success_settles_behind_error_witness :
  QueryResultView
    (run [ExampleClick (js "a"); ExampleClick (js "b");
          Settled (inl (ThrownError (js "Failed to fetch"))) (js "id-b") [];
          Settled (okFetch earlierResult (api.query [] None None None None))
            (js "id-a") []]
       initialStore).1
  = QueryFailed (js "Failed to fetch").
Proof.
  pose proof (success_settles_behind_error earlierResult (js "id-a") []
                (js "Failed to fetch")
                (run [ExampleClick (js "a"); ExampleClick (js "b");
                      Settled (inl (ThrownError (js "Failed to fetch")))
                        (js "id-b") []]
                   initialStore).1 eq_refl eq_refl) as (_ & _ & _ & Hview).
  exact Hview.
Defined.

(** ** Where history entries come from *)

Lemma unmarked_toggleItem (id : jsstring) (item : QueryHistoryItem.t) :
  unmarked (toggleItem id item) = unmarked item.
Proof. unfold toggleItem. by case_decide. Qed.

Lemma step_history_origin (ev : event) (s : QueryStore)
    (x : QueryHistoryItem.t) :
  x ∈ unmarked <$> history (step ev s).1 ->
  x ∈ unmarked <$> history s
  \/ exists fetched uuid now result,
      ev = Settled fetched uuid now
      /\ api.fetchAPI fetched = inr result
      /\ x = historyItem result uuid now.
Proof.
  destruct ev; simpl; try (by left).
  - unfold selectChange. destruct (domainOptions !! choice); by left.
  - unfold selectChange. destruct (sourceTypeOptions !! choice); by left.
  - unfold selectChange. destruct (classificationOptions !! choice); by left.
  - unfold handleSubmit.
    destruct (truthy (trim (currentQuery s)) && negb (isLoading s)); by left.
  - rewrite <- list_fmap_compose. intros Hx. left.
    erewrite list_fmap_ext; [exact Hx|]. intros i y _. simpl.
    symmetry. apply unmarked_toggleItem.
  - intros (y & -> & Hy)%list_elem_of_fmap. left.
    apply list_elem_of_fmap. exists y. split; [done|].
    by apply list_elem_of_filter in Hy as [_ ?].
  - intros Hx. by apply elem_of_nil in Hx.
  - destruct (api.fetchAPI fetched) as [e|result] eqn:Hf; simpl; [by left|].
    intros Hx. apply elem_of_cons in Hx as [->|Hx].
    + right. by exists fetched, uuid, now, result.
    + left. apply list_elem_of_fmap in Hx as (y & -> & Hy).
      apply list_elem_of_fmap. exists y. split; [done|].
      by apply (subseteq_take 99) in Hy.
Qed.

Lemma run_history_origin (evs : list event) (s : QueryStore)
    (x : QueryHistoryItem.t) :
  x ∈ unmarked <$> history (run evs s).1 ->
  x ∈ unmarked <$> history s
  \/ exists fetched uuid now result,
      Settled fetched uuid now ∈ evs
      /\ api.fetchAPI fetched = inr result
      /\ x = historyItem result uuid now.
Proof.
  revert s. induction evs as [|ev evs IH]; intros s; simpl; [by left|].
  destruct (step ev s) as [s1 sent1] eqn:Hstep.
  specialize (IH s1). destruct (run evs s1) as [s2 sent2]. simpl in *.
  intros Hx. destruct (IH Hx) as [H1|(f & u & n & r & Hin & Hf & ->)].
  - assert (Hs1 : s1 = (step ev s).1) by by rewrite Hstep.
    rewrite Hs1 in H1.
    apply step_history_origin in H1 as [?|(f & u & n & r & -> & Hf & ->)].
    + by left.
    + right. exists f, u, n, r. split; [apply list_elem_of_here | done].
  - right. exists f, u, n, r. split; [by apply list_elem_of_further | done].
Qed.

(** Every entry of the history, after any events from any store (the
    created one, or one whose history [persist] restored), is accounted
    for: apart from its bookmark it is either an entry the history already
    held before the events, or the entry built from the result of some
    settled request of the run that succeeded, with that request's id and
    time stamp.  No event makes an entry out of a failed request. *)
Theorem history_entries_come_from_successes (evs : list event)
    (s : QueryStore) (item : QueryHistoryItem.t) :
  item ∈ history (run evs s).1 ->
  (exists old, old ∈ history s /\ unmarked item = unmarked old)
  \/ exists fetched uuid now result,
      Settled fetched uuid now ∈ evs
      /\ api.fetchAPI fetched = inr result
      /\ unmarked item = historyItem result uuid now.
Proof.
  intros Hitem.
  destruct (run_history_origin evs s (unmarked item)) as [H|H].
  - apply list_elem_of_fmap. by exists item.
  - left. apply list_elem_of_fmap in H as (old & Hold & Hin). by exists old.
  - by right.
Qed.

Lemma history_entries_come_from_successes_witness :
  let persisted :=
    {| QueryHistoryItem.id := js "id-0";
       QueryHistoryItem.question := js "earlier visit";
       QueryHistoryItem.answer := js "Yes [1].";
       QueryHistoryItem.sources_count := 2;
       QueryHistoryItem.query_time_seconds := 15 # 10;
       QueryHistoryItem.timestamp := js "t0";
       QueryHistoryItem.bookmarked := false |} in
  let evs :=
    [ExampleClick (js "first");
     Settled (okFetch earlierResult (api.query [] None None None None))
       (js "id-1") (js "t1");
     ExampleClick (js "second");
     Settled (inl (ThrownError (js "Failed to fetch"))) (js "id-2") (js "t2");
     BookmarkClick (js "id-0")] in
  let item := toggleItem (js "id-0") persisted in
  history (run evs (rehydrate (Some [persisted]))).1
  = [historyItem earlierResult (js "id-1") (js "t1"); item]
  /\ ((exists old,
         old ∈ history (rehydrate (Some [persisted]))
         /\ unmarked item = unmarked old)
      \/ exists fetched uuid now result,
          Settled fetched uuid now ∈ evs
          /\ api.fetchAPI fetched = inr result
          /\ unmarked item = historyItem result uuid now).
Proof.
  intros persisted evs item. split; [reflexivity|].
  apply (history_entries_come_from_successes evs
           (rehydrate (Some [persisted])) item).
  apply list_elem_of_further, list_elem_of_here.
Defined.

(** ** Deleting history entries *)

(** [deleteHistoryItem id] removes exactly the entries whose id is [id]:
    what is left are the other entries, in their order; deleting again, or
    deleting an id that no entry has, changes nothing; and deleting
    commutes with toggling a bookmark. *)
Theorem deleteHistoryItem_removes (id : jsstring) (s : QueryStore) :
  let s' := deleteHistoryItem id s in
  (forall item,
      item ∈ history s' <-> item ∈ history s /\ QueryHistoryItem.id item <> id)
  /\ (id ∉ QueryHistoryItem.id <$> history s')
  /\ (history s' `sublist_of` history s)
  /\ deleteHistoryItem id s' = s'
  /\ (id ∉ QueryHistoryItem.id <$> history s -> s' = s)
  /\ (forall id',
         deleteHistoryItem id (toggleBookmark id' s)
         = toggleBookmark id' (deleteHistoryItem id s)).
Proof.
  intros s'. subst s'. split; [|split; [|split; [|split; [|split]]]].
  - intros item. simpl. rewrite list_elem_of_filter. tauto.
  - simpl. intros (item & Hid & Hin)%list_elem_of_fmap.
    apply list_elem_of_filter in Hin as [Hne _]. by apply Hne.
  - simpl. apply sublist_filter.
  - unfold deleteHistoryItem, setHistory. simpl. f_equal.
    rewrite list_filter_filter. apply list_filter_iff. tauto.
  - intros Hn. destruct s as [q l r e d st c h].
    unfold deleteHistoryItem, setHistory. simpl in *. f_equal.
    induction h as [|item h IH]; [done|].
    rewrite filter_cons_True.
    + f_equal. apply IH. intros Hin. apply Hn. simpl.
      by apply list_elem_of_further.
    + intros Heq. apply Hn. simpl. rewrite <- Heq. apply list_elem_of_here.
  - intros id'. unfold deleteHistoryItem, toggleBookmark, setHistory. simpl.
    f_equal. induction (history s) as [|item h IH]; [done|].
    rewrite fmap_cons.
    destruct (decide (QueryHistoryItem.id item = id)) as [Heq|Hne].
    + rewrite !filter_cons_False; [exact IH | by intros ? | ].
      intros Hne. apply Hne. unfold toggleItem. by case_decide.
    + rewrite !filter_cons_True; [by rewrite fmap_cons, IH | done | ].
      unfold toggleItem. by case_decide.
Qed.

(** ** The "Domains searched" line *)

Lemma join_nil (separator : jsstring) (parts : list jsstring) :
  truthy separator = true -> join separator parts = [] ->
  parts = [] \/ parts = [[]].
Proof.
  intros Hsep. destruct parts as [|part [|part' rest]]; simpl.
  - by left.
  - intros ->. by right.
  - intros H. apply app_eq_nil in H as [_ H].
    apply app_eq_nil in H as [-> _]. done.
Qed.

(** The "Domains searched" line is left out exactly when the result lists
    no domain; otherwise it shows the names joined by ", ", and its
    fallback text "All" is shown only for a list that consists of one
    empty name. *)
Theorem domainsSearchedLine_cases (currentResult : QueryResult.t) :
  let domains := QueryResult.domains_searched currentResult in
  (domainsSearchedLine currentResult = None <-> domains = [])
  /\ (domains <> [] -> domains <> [[]] ->
      domainsSearchedLine currentResult = Some (join (js ", ") domains)
      /\ join (js ", ") domains <> [])
  /\ (domains = [[]] -> domainsSearchedLine currentResult = Some (js "All")).
Proof.
  intros domains. subst domains. unfold domainsSearchedLine.
  destruct (QueryResult.domains_searched currentResult) as [|d rest] eqn:Hd.
  - by repeat split.
  - rewrite bool_decide_true by (simpl; lia). split; [|split].
    + by split.
    + intros _ Hne.
      assert (Hj : join (js ", ") (d :: rest) <> []).
      { intros Hj. apply join_nil in Hj as [?|?]; done. }
      split; [|done]. unfold or_string.
      by destruct (join (js ", ") (d :: rest)).
    + by intros [= -> ->].
Qed.

(** ** The history page *)

Lemma savedCount_toggle_other (id : jsstring) (h : list QueryHistoryItem.t) :
  id ∉ QueryHistoryItem.id <$> h ->
  HistoryPage.savedCount (toggleItem id <$> h) = HistoryPage.savedCount h.
Proof.
  intros Hn. f_equal. f_equal.
  rewrite <- (list_fmap_id h) at 2. apply list_fmap_ext.
  intros i item Hi. apply toggleItem_other. intros Heq. apply Hn.
  apply list_elem_of_fmap. exists item. split; [done|].
  by eapply list_elem_of_lookup_2.
Qed.

(** On a history whose ids are all different, toggling the bookmark of an
    entry changes the number in the "Saved" tab by exactly one (up for an
    entry that was not bookmarked, down for one that was), leaves the
    number in the "All" tab alone, and the entry is listed under
    "bookmarked" afterwards exactly if it was not before. *)
Theorem toggleBookmark_saved_count (s : QueryStore) (i : nat)
    (item : QueryHistoryItem.t) :
  NoDup (QueryHistoryItem.id <$> history s) ->
  history s !! i = Some item ->
  let s' := toggleBookmark (QueryHistoryItem.id item) s in
  HistoryPage.savedCount (history s')
  + (if QueryHistoryItem.bookmarked item then 1 else 0)
  = HistoryPage.savedCount (history s)
    + (if QueryHistoryItem.bookmarked item then 0 else 1)
  /\ length (HistoryPage.filtered HistoryPage.all (history s'))
     = length (HistoryPage.filtered HistoryPage.all (history s))
  /\ (toggleItem (QueryHistoryItem.id item) item
      ∈ HistoryPage.filtered HistoryPage.bookmarked (history s')
      <-> QueryHistoryItem.bookmarked item = false).
Proof.
  intros Hnd Hi s'. subst s'. simpl.
  split; [|split].
  - revert i Hi Hnd. induction (history s) as [|x h IH]; intros i Hi Hnd;
      [done|].
    rewrite fmap_cons in Hnd. apply NoDup_cons in Hnd as [Hx Hnd].
    destruct i as [|i]; simpl in Hi.
    + injection Hi as ->. rewrite fmap_cons.
      unfold HistoryPage.savedCount in *.
      pose proof (savedCount_toggle_other _ _ Hx) as Hrest.
      unfold HistoryPage.savedCount in Hrest.
      unfold toggleItem at 1. rewrite decide_True by done.
      destruct (QueryHistoryItem.bookmarked item) eqn:Hb.
      * rewrite filter_cons_False by (simpl; congruence).
        rewrite (filter_cons_True _ item) by done. simpl. lia.
      * rewrite filter_cons_True by done.
        rewrite (filter_cons_False _ item) by congruence. simpl. lia.
    + specialize (IH i Hi Hnd). rewrite fmap_cons.
      assert (Hne : QueryHistoryItem.id x <> QueryHistoryItem.id item).
      { intros Heq. apply Hx. rewrite Heq. apply list_elem_of_fmap.
        exists item. split; [done|]. by eapply list_elem_of_lookup_2. }
      rewrite (toggleItem_other _ x Hne).
      unfold HistoryPage.savedCount in *.
      destruct (decide (QueryHistoryItem.bookmarked x = true)).
      * rewrite !filter_cons_True by done. simpl. lia.
      * by rewrite !filter_cons_False.
  - by rewrite length_fmap.
  - rewrite list_elem_of_filter. unfold toggleItem at 1.
    rewrite decide_True by done. simpl. split.
    + intros [Hb _]. by apply negb_true_iff.
    + intros Hb. split; [by rewrite Hb|].
      apply list_elem_of_fmap. exists item. split.
      * unfold toggleItem. by rewrite decide_True.
      * by eapply list_elem_of_lookup_2.
Qed.

Lemma toggleBookmark_saved_count_witness :
  HistoryPage.savedCount
    (history
       (toggleBookmark (js "id-1")
          (executeQuery (js "first") (okFetch earlierResult) (js "id-1") []
             initialStore)))
  + 0
  = HistoryPage.savedCount
      (history
         (executeQuery (js "first") (okFetch earlierResult) (js "id-1") []
            initialStore))
    + 1.
Proof.
  pose proof (toggleBookmark_saved_count
                (executeQuery (js "first") (okFetch earlierResult) (js "id-1")
                   [] initialStore)
                0 (historyItem earlierResult (js "id-1") [])) as H.
  destruct H as [Hcount _].
  - apply (bool_decide_unpack _). reflexivity.
  - reflexivity.
  - exact Hcount.
Defined.

Lemma HistoryPage_run_armed (evs : list HistoryPage.Event) (s : QueryStore) :
  history
    (HistoryPage.store
       (HistoryPage.run evs
          {| HistoryPage.confirmClear := true; HistoryPage.store := s |}))
  = match evs with
    | HistoryPage.ClearClick :: _ => []
    | _ => if HistoryPage.doubleClick evs then [] else history s
    end
  /\ history
       (HistoryPage.store
          (HistoryPage.run evs
             {| HistoryPage.confirmClear := false; HistoryPage.store := s |}))
     = if HistoryPage.doubleClick evs then [] else history s.
Proof.
  revert s. induction evs as [|ev evs IH]; intros s; [done|].
  destruct ev; simpl.
  - unfold HistoryPage.handleClear. simpl. split.
    + destruct (IH (clearHistory s)) as [_ ->]. simpl.
      by destruct (HistoryPage.doubleClick evs).
    + destruct (IH s) as [-> _]. by destruct evs as [|[] evs].
  - unfold HistoryPage.confirmTimeout. simpl.
    destruct (IH s) as [_ ->]. done.
Qed.

(** The history page clears the history only on a click of the clear
    button that directly follows another click: after any sequence of
    clicks and timer callbacks, starting unarmed, the history is empty if
    two clicks were adjacent and is untouched otherwise; in particular a
    single click, or two clicks with the timer firing between them, clear
    nothing. *)
Theorem handleClear_needs_two_clicks (evs : list HistoryPage.Event)
    (s : QueryStore) :
  history
    (HistoryPage.store
       (HistoryPage.run evs
          {| HistoryPage.confirmClear := false; HistoryPage.store := s |}))
  = (if HistoryPage.doubleClick evs then [] else history s)
  /\ HistoryPage.doubleClick [HistoryPage.ClearClick] = false
  /\ HistoryPage.doubleClick
       [HistoryPage.ClearClick; HistoryPage.ConfirmTimeout;
        HistoryPage.ClearClick] = false
  /\ HistoryPage.doubleClick [HistoryPage.ClearClick; HistoryPage.ClearClick]
     = true.
Proof. split; [apply HistoryPage_run_armed | done]. Qed.

(** ** The analytics page *)

Section AnalyticsFacts.

Variable toUpperCaseOther : N -> jsstring.

Let step := Analytics.domainStep toUpperCaseOther.
Let ownBar := Analytics.ownBar toUpperCaseOther.










Lemma ownBar_not_found (acc : list DataSourceInfo.t) (s : DataSourceInfo.t) :
  Forall (fun s => Analytics.startsLowercase s = true) acc ->
  Analytics.startsLowercase s = true ->
  list_find (fun d => Analytics.label d = DataSourceInfo.domain s)
    (ownBar <$> acc) = None.
Proof.
  intros Hacc Hs. apply list_find_None, Forall_fmap, Forall_forall.
  intros s0 Hs0. eapply Forall_forall in Hacc; [|exact Hs0]. simpl.
  unfold Analytics.startsLowercase in *.
  destruct (DataSourceInfo.domain s0) as [|c0 r0]; [done|].
  destruct (DataSourceInfo.domain s) as [|c r]; [done|].
  simpl. unfold Analytics.toUpperCaseUnit. rewrite Hacc. simpl.
  intros [= Hc _].
  apply andb_true_iff in Hacc as [H1 H2]. apply andb_true_iff in Hs as [H3 H4].
  apply N.leb_le in H1, H2, H3, H4. lia.
Qed.

Lemma domainData_from (acc sources : list DataSourceInfo.t) :
  Forall (fun s => Analytics.startsLowercase s = true) (acc ++ sources) ->
  foldl step (ownBar <$> acc) sources = ownBar <$> (acc ++ sources).
Proof.
  revert acc. induction sources as [|s sources IH]; intros acc Hall; simpl.
  - by rewrite app_nil_r.
  - apply Forall_app in Hall as Hsplit. destruct Hsplit as [Hacc Hs].
    apply Forall_cons in Hs as [Hs _].
    unfold step at 2, Analytics.domainStep.
    rewrite (ownBar_not_found acc s Hacc Hs).
    change ([ {| Analytics.label := _; Analytics.records := _;
                 Analytics.rawDomain := _ |} ]) with (ownBar <$> [s]).
    rewrite <- fmap_app. rewrite IH; rewrite <- (assoc_L (++)); done.
Qed.

(** When the domain of every source starts with a lowercase letter a to z
    (as the six [DOMAINS] do), the domain chart has one bar per source, in
    the order of the sources, each with that source's own record count:
    [find] compares the capitalised label with the raw domain, so two
    sources of one domain are never added together. *)
Theorem domainData_never_merges (sources : list DataSourceInfo.t) :
  Forall (fun s => Analytics.startsLowercase s = true) sources ->
  Analytics.domainData toUpperCaseOther sources = Analytics.ownBar toUpperCaseOther <$> sources
  /\ length (Analytics.domainData toUpperCaseOther sources) = length sources.
Proof.
  intros Hall. pose proof (domainData_from [] sources Hall) as H.
  simpl in H. unfold Analytics.domainData. fold step. rewrite H.
  split; [done | by rewrite length_fmap].
Qed.

End AnalyticsFacts.


(** Beyond [Number.MAX_SAFE_INTEGER] the additions round: for the counts
    1, 2^53 and 1 the card shows 2^53, two less than the bars add up to. *)
Example totalRecords_rounds :
  Analytics.totalRecords hugeSources = 9007199254740992%Z
  /\ Analytics.sumRecords (Analytics.domainData (fun c => [c]) hugeSources)
     = 9007199254740994%Z
  /\ Analytics.exactTotal hugeSources = 9007199254740994%Z.
Proof. by vm_compute. Qed.

Lemma domainData_never_merges_witness :
  Analytics.domainData (fun c => [c]) sampleSources
  = [ {| Analytics.label := js "Claims"; Analytics.records := 20;
         Analytics.rawDomain := js "claims" |};
      {| Analytics.label := js "Eligibility"; Analytics.records := 0;
         Analytics.rawDomain := js "eligibility" |};
      {| Analytics.label := js "Claims"; Analytics.records := 12;
         Analytics.rawDomain := js "claims" |} ].
Proof.
  destruct (domainData_never_merges (fun c => [c]) sampleSources) as [H _].
  - repeat constructor.
  - exact H.
Defined.

(** ** The navigation *)

Lemma startsWith_app (pathname href : jsstring) :
  startsWith pathname href = true -> exists rest, pathname = href ++ rest.
Proof. unfold startsWith. intros H. by apply bool_decide_eq_true in H. Qed.

(** For every pathname at most one of the four navigation items is
    highlighted: "Query" exactly on "/", and each other item exactly on
    the paths that start with its href.  A path that starts with none of
    them highlights nothing. *)
Theorem isActive_at_most_one (pathname : jsstring) :
  length (filter (fun item => isActive item.1 pathname = true) navItems) <= 1
  /\ (isActive (js "/") pathname = true <-> pathname = js "/")
  /\ (forall href label,
         (href, label) ∈ navItems -> href <> js "/" ->
         (isActive href pathname = true <-> href `prefix_of` pathname)).
Proof.
  assert (Hroot : isActive (js "/") pathname = true <-> pathname = js "/").
  { unfold isActive. rewrite bool_decide_true by done.
    apply bool_decide_eq_true. }
  assert (Hother : forall href, href <> js "/" ->
                     (isActive href pathname = true
                      <-> href `prefix_of` pathname)).
  { intros href Hne. unfold isActive, startsWith.
    rewrite bool_decide_false by done. apply bool_decide_eq_true. }
  split; [|split; [exact Hroot | intros href label _; apply Hother]].
  unfold navItems. rewrite !filter_cons, filter_nil. simpl.
  repeat case_decide; simpl; try lia; exfalso;
    repeat match goal with
      | H : isActive (js "/") pathname = true |- _ =>
          apply Hroot in H; subst pathname
      | H : isActive _ _ = true |- _ =>
          apply Hother in H; [destruct H as [? H]|discriminate]
      end;
    subst; simplify_eq/=.
Qed.

(** ** The sources page *)

Section SourcesPageFacts.

Variable DataSourcePreview : Type.

(** Expanding a source that is not expanded requests its preview, once,
    and shows the spinner; when the request settles with nothing in
    between, the row shows the preview on success and "Failed to load
    preview" on failure; toggling the row again collapses it, drops the
    preview and requests nothing. *)
Theorem handleToggle_expand_collapse (id : jsstring) (st : SourcesPage.State DataSourcePreview)
    (outcome : settled DataSourcePreview) :
  SourcesPage.expandedId st <> Some id ->
  let started := SourcesPage.handleToggle_start id st in
  let settled_ := SourcesPage.handleToggle_settle outcome started.1 in
  started.2 = [js "/api/sources/" ++ id ++ js "/preview"]
  /\ SourcesPage.expandedPanel id started.1 = SourcesPage.Spinner
  /\ SourcesPage.expandedPanel id settled_
     = match outcome with
       | inr data => SourcesPage.PreviewTable data
       | inl _ => SourcesPage.FailedToLoad
       end
  /\ (SourcesPage.handleToggle_start id settled_).2 = []
  /\ SourcesPage.expandedPanel id (SourcesPage.handleToggle_start id settled_).1
     = SourcesPage.Collapsed
  /\ SourcesPage.preview (SourcesPage.handleToggle_start id settled_).1 = None.
Proof.
  intros Hne started settled_. subst started settled_.
  unfold SourcesPage.handleToggle_start, SourcesPage.expandedPanel,
    SourcesPage.handleToggle_settle.
  destruct outcome as [e|data]; simpl;
    repeat first [progress simplify_eq/= | case_decide]; done.
Qed.

(** A preview that arrives late is shown under another source: after
    expanding [a] and then [b] while the request for [a] is pending, the
    preview of [a] is stored when it arrives and the row of [b] shows it,
    with the spinner gone although the request for [b] is still pending;
    if the request for [b] then fails, the row of [b] keeps showing the
    preview of [a]. *)
Theorem handleToggle_late_preview (a b : jsstring) (st : SourcesPage.State DataSourcePreview)
    (dataA : DataSourcePreview) (e : thrown) :
  SourcesPage.expandedId st <> Some a ->
  a <> b ->
  let st1 := (SourcesPage.handleToggle_start a st).1 in
  let st2 := (SourcesPage.handleToggle_start b st1).1 in
  let st3 := SourcesPage.handleToggle_settle (inr dataA) st2 in
  let st4 := SourcesPage.handleToggle_settle (inl e) st3 in
  SourcesPage.expandedPanel b st2 = SourcesPage.Spinner
  /\ SourcesPage.expandedPanel b st3 = SourcesPage.PreviewTable dataA
  /\ SourcesPage.expandedPanel b st4 = SourcesPage.PreviewTable dataA
  /\ SourcesPage.expandedPanel a st4 = SourcesPage.Collapsed.
Proof.
  intros Hst Hab st1 st2 st3 st4. subst st1 st2 st3 st4.
  unfold SourcesPage.handleToggle_start, SourcesPage.expandedPanel,
    SourcesPage.handleToggle_settle.
  simpl; repeat first [progress simplify_eq/= | case_decide]; done.
Qed.

End SourcesPageFacts.

Lemma handleToggle_expand_collapse_witness :
  SourcesPage.expandedPanel (js "claims")
    (SourcesPage.handleToggle_settle (inl ThrownOther)
       (SourcesPage.handleToggle_start (js "claims")
          {| SourcesPage.expandedId := None;
             SourcesPage.preview := @None nat;
             SourcesPage.previewLoading := false |}).1)
  = SourcesPage.FailedToLoad.
Proof.
  pose proof (handleToggle_expand_collapse nat (js "claims")
                {| SourcesPage.expandedId := None;
                   SourcesPage.preview := None;
                   SourcesPage.previewLoading := false |}
                (inl ThrownOther)) as H.
  destruct H as (_ & _ & Hpanel & _); [discriminate | exact Hpanel].
Defined.

Lemma handleToggle_late_preview_witness :
  SourcesPage.expandedPanel (js "pharmacy")
    (SourcesPage.handleToggle_settle (inl ThrownOther)
       (SourcesPage.handleToggle_settle (inr 7)
          (SourcesPage.handleToggle_start (js "pharmacy")
             (SourcesPage.handleToggle_start (js "claims")
                {| SourcesPage.expandedId := None;
                   SourcesPage.preview := @None nat;
                   SourcesPage.previewLoading := false |}).1).1))
  = SourcesPage.PreviewTable 7.
Proof.
  pose proof (handleToggle_late_preview nat (js "claims") (js "pharmacy")
                {| SourcesPage.expandedId := None;
                   SourcesPage.preview := None;
                   SourcesPage.previewLoading := false |}
                7 ThrownOther) as H.
  destruct H as (_ & _ & Hpanel & _); [discriminate | discriminate |].
  exact Hpanel.
Defined.
